(** * Library room booking: the three serverless handlers

    A shallow embedding of the Netlify functions of the student booking
    application: [getRooms], [getRoomSchedules] and [submitBookingRequest].

    - Instants are integers: milliseconds since the epoch, as the time value
      of a JavaScript [Date].  A timestamp column of the store holds such an
      instant; [toISOString] is its order-preserving rendering.
    - The store (the three tables reached through the Supabase client) is an
      explicit state threaded through a small state-and-exception monad.
    - A Supabase call answers [{data, error}]: here a sum.  Which calls fail
      is an input of a handler run ([Faults]).
    - JavaScript numbers are modelled by exact integers, which is what IEEE
      doubles are below 2^53; fractional numbers are outside the model. *)

From Stdlib Require Import ZArith Ascii String List Lia Sorted Permutation.
From Stdlib Require Import DecimalString DecimalPos.
From stdpp Require Import base tactics option list gmap strings.

Local Open Scope string_scope.
Local Open Scope Z_scope.

(** ** Dates *)

Module Time.

Definition msPerMinute : Z := 60000.
Definition msPerHour : Z := 3600000.
Definition msPerDay : Z := 86400000.
Definition maxTime : Z := 8640000000000000.

(** The time value of a [Date]; [None] is the Invalid Date (NaN). *)
Definition Date := option Z.

(** The host's time zone is a fixed offset [tz] from UTC, in
    milliseconds (no daylight-saving change on the day of the call). *)
Definition LocalTime (tz t : Z) : Z := t + tz.
Definition UTC (tz t : Z) : Z := t - tz.

Definition Day (t : Z) : Z := t / msPerDay.
Definition TimeWithinDay (t : Z) : Z := t mod msPerDay.

Definition MakeTime (hour min sec ms : Z) : Z :=
  hour * msPerHour + min * msPerMinute + sec * 1000 + ms.
Definition MakeDate (day time : Z) : Z := day * msPerDay + time.

Definition TimeClip (t : Z) : Date :=
  if Z.abs t <=? maxTime then Some t else None.

(** [new Date(d.getFullYear(), d.getMonth(), d.getDate(), hours, minutes,
    seconds)] for a valid date [d] (of a year from 100 on): the year, month
    and day of [d] in local time name the local day [Day (LocalTime tz d)];
    a NaN component gives the Invalid Date; hours and minutes out of 0..23
    and 0..59 carry over. *)
Definition onDayOf (tz d : Z) (hours minutes : option Z) (seconds : Z) : Date :=
  match hours, minutes with
  | Some h, Some m =>
      TimeClip (UTC tz (MakeDate (Day (LocalTime tz d)) (MakeTime h m seconds 0)))
  | _, _ => None
  end.

(** [new Date(d.getTime() + n)] *)
Definition plus (d : Date) (n : Z) : Date :=
  match d with
  | Some t => TimeClip (t + n)
  | None => None
  end.

(** [d <= e] on dates compares time values; a NaN makes it false. *)
Definition le (d e : Date) : bool :=
  match d, e with
  | Some a, Some b => a <=? b
  | _, _ => false
  end.

Definition getHours (tz t : Z) : Z := TimeWithinDay (LocalTime tz t) / msPerHour.
Definition getMinutes (tz t : Z) : Z := (TimeWithinDay (LocalTime tz t) / msPerMinute) mod 60.

End Time.

(** ** Strings: [split], [parseInt] and the student-id pattern *)

Module Str.

Definition code (a : ascii) : N := N_of_ascii a.

Definition is_digit (a : ascii) : bool :=
  ((48 <=? code a) && (code a <=? 57))%N.

(** White space skipped by [parseInt] (the ASCII part of it). *)
Definition is_space (a : ascii) : bool :=
  ((code a =? 32) || ((9 <=? code a) && (code a <=? 13)))%N.

Fixpoint trimStart (s : string) : string :=
  match s with
  | String a r => if is_space a then trimStart r else s
  | EmptyString => s
  end.

(** Value of a character as a digit in some radix up to 36. *)
Definition digit_value (a : ascii) : option Z :=
  let c := code a in
  if ((48 <=? c) && (c <=? 57))%N then Some (Z.of_N c - 48)
  else if ((97 <=? c) && (c <=? 122))%N then Some (Z.of_N c - 87)
  else if ((65 <=? c) && (c <=? 90))%N then Some (Z.of_N c - 55)
  else None.

(** The longest prefix of digits of the radix, as a number; [acc] is
    [None] until a first digit has been read. *)
Fixpoint digits (radix : Z) (s : string) (acc : option Z) : option Z :=
  match s with
  | String a r =>
      match digit_value a with
      | Some d =>
          if d <? radix
          then digits radix r (Some (default 0 acc * radix + d))
          else acc
      | None => acc
      end
  | EmptyString => acc
  end.

(** [parseInt(s)] with no radix argument; [None] is NaN. *)
Definition parseInt (s : string) : option Z :=
  let s1 := trimStart s in
  let '(sign, s2) :=
    match s1 with
    | String "-" r => (-1, r)
    | String "+" r => (1, r)
    | _ => (1, s1)
    end in
  let '(radix, s3) :=
    match s2 with
    | String "0" (String "x" r) => (16, r)
    | String "0" (String "X" r) => (16, r)
    | _ => (10, s2)
    end in
  match digits radix s3 None with
  | Some n => Some (sign * n)
  | None => None
  end.

(** [s.split(sep)] for a one-character separator: never empty. *)
Fixpoint split (sep : ascii) (s : string) : list string :=
  match s with
  | EmptyString => [EmptyString]
  | String a r =>
      if Ascii.eqb a sep then EmptyString :: split sep r
      else match split sep r with
           | h :: t => String a h :: t
           | [] => [String a EmptyString]
           end
  end.

(** Matching [[0-9]{lo,hi}$] at the head of [s]. *)
Fixpoint match_digits (lo hi : nat) (s : string) {struct s} : bool :=
  match s with
  | EmptyString => Nat.eqb lo 0
  | String a r =>
      if is_digit a
      then match hi with
           | O => false
           | S hi' => match_digits (Nat.pred lo) hi' r
           end
      else false
  end.

(** Two decimal digits, as an [<input type="time">] prints a clock
    component. *)
Definition digit_char (n : Z) : ascii := ascii_of_N (Z.to_N (48 + n)).
Definition two_digits (n : Z) : string :=
  String (digit_char (n / 10)) (String (digit_char (n mod 10)) EmptyString).
Definition clock (h m : Z) : string := two_digits h ++ ":" ++ two_digits m.

End Str.

(** ** The store *)

Module Room.
Record t := mk { id : Z; name : string; access_group : string; is_active : bool }.
End Room.

Module Booking.
Record t := mk { id : Z; room_id : Z; student_id : string; start_time : Z; end_time : Z }.
End Booking.

Inductive Status := pending | approved | rejected.

Definition is_pending (s : Status) : bool :=
  match s with
  | pending => true
  | _ => false
  end.

Module Request.
Record t := mk {
  id : Z; student_id : string; room_id : Z;
  start_time : Z; end_time : Z; status : Status }.
End Request.

(** The tables [rooms], [bookings] and [booking_requests], rows in stored
    order, and the sequence that numbers new [booking_requests] rows. *)
Record Db := {
  rooms : list Room.t;
  bookings : list Booking.t;
  booking_requests : list Request.t;
  next_request_id : Z }.

(** For each Supabase call of the handlers, the error it answers with, if
    any. *)
Record Faults := {
  rooms_error : option string;
  bookings_error : option string;
  requests_error : option string;
  insert_error : option string }.

Definition no_faults : Faults :=
  {| rooms_error := None; bookings_error := None;
     requests_error := None; insert_error := None |}.

(** ** Handler computations: store passing with [throw] and [try]/[catch] *)

Inductive Outcome (A : Type) : Type :=
| Return (a : A)
| Throw (message : string).
Arguments Return {A} a.
Arguments Throw {A} message.

Definition M (A : Type) : Type := Db -> Outcome A * Db.

#[global] Instance M_ret : MRet M := fun A a db => (Return a, db).
#[global] Instance M_bind : MBind M := fun A B f m db =>
  match m db with
  | (Return a, db') => f a db'
  | (Throw e, db') => (Throw e, db')
  end.

Definition throw {A} (e : string) : M A := fun db => (Throw e, db).

Definition try_catch {A} (m : M A) (handle : string -> M A) : M A := fun db =>
  match m db with
  | (Return a, db') => (Return a, db')
  | (Throw e, db') => handle e db'
  end.

(** [{data, error}]: the error message or the data. *)
Definition Reply (A : Type) : Type := string + A.

(** A thrown Supabase error: [if (error) throw error]. *)
Definition unwrap {A} (r : Reply A) : M A :=
  match r with
  | inl e => throw e
  | inr a => mret a
  end.

(** [.order(key)]: rows by ascending key; rows with equal keys keep their
    stored order. *)
Fixpoint insert_by {A} (key : A -> Z) (x : A) (l : list A) : list A :=
  match l with
  | [] => [x]
  | y :: l' => if key y <? key x then y :: insert_by key x l' else x :: y :: l'
  end.

Fixpoint order_by {A} (key : A -> Z) (l : list A) : list A :=
  match l with
  | [] => []
  | x :: l' => insert_by key x (order_by key l')
  end.

(** The order of the rows of an ordered answer. *)
Definition key_le {A} (key : A -> Z) (x y : A) : Prop := key x <= key y.

(** [supabase.from(table).select(..).<filters>]: the rows of the table that
    pass the filters, whole (a handler reads only the columns it selected);
    the store is not changed. *)
Definition answer {A} (fault : option string) (keep : A -> bool)
    (rows : list A) : Reply (list A) :=
  match fault with
  | Some e => inl e
  | None => inr (List.filter keep rows)
  end.

Definition select_from {A} (table : Db -> list A) (fault : option string)
    (keep : A -> bool) : M (Reply (list A)) := fun db =>
  (Return (answer fault keep (table db)), db).

(** [.single()]: exactly one row, else an error. *)
Definition single {A} (r : Reply (list A)) : Reply A :=
  match r with
  | inl e => inl e
  | inr [x] => inr x
  | inr _ => inl "JSON object requested, multiple (or no) rows returned"
  end.

(** [supabase.from('booking_requests').insert(row).select().single()]: the
    store numbers the row and appends it, or fails and keeps the table as
    it was. *)
Definition insert_request (fault : option string)
    (student_id : string) (room_id start_time end_time : Z) (status : Status)
  : M (Reply Request.t) := fun db =>
  match fault with
  | Some e => (Return (inl e), db)
  | None =>
      let row := Request.mk (next_request_id db) student_id room_id
                   start_time end_time status in
      (Return (inr row),
       {| rooms := rooms db;
          bookings := bookings db;
          booking_requests := (booking_requests db ++ [row])%list;
          next_request_id := next_request_id db + 1 |})
  end.

(** [d.toISOString()]: a [RangeError] on the Invalid Date. *)
Definition toISOString (d : Time.Date) : M Z :=
  match d with
  | Some t => mret t
  | None => throw "Invalid time value"
  end.

(** ** Requests and responses *)

(** The fields of the JSON body of a booking submission, of the types the
    form of the page sends: [student_id] and [start_time] strings,
    [room_id] and [duration] integers; [None] is an absent or [null] field.
    The handler itself takes any JSON: a field of another type (a number
    or an array for [student_id], a string for [duration]) is coerced by
    the pattern test and by the comparisons and is handed to the store as
    it was sent.  Such bodies are outside the model: what is proved of a
    submission is proved of one whose fields have these types. *)
Record Body := {
  student_id : option string;
  room_id : option Z;
  start_time : option string;
  duration : option Z }.

(** [event.body] after [JSON.parse] and the destructuring: they throw on
    text that is not JSON, or is [null]. *)
Inductive EventBody :=
| Unparseable (message : string)
| Parsed (b : Body).

Record Event := { httpMethod : string; body : EventBody }.

Module RoomStatus.
Record t := mk { id : Z; name : string; is_available : bool }.
End RoomStatus.

Module Slot.
Record t := mk { student_id : string; start_time : Z; end_time : Z }.
End Slot.

Module RoomSchedule.
Record t := mk { id : Z; name : string; bookings : list Slot.t }.
End RoomSchedule.

(** The object given to [JSON.stringify] for the response body; [Empty] is
    the empty body of a preflight answer.  [date] is the UTC day number
    that [now.toISOString().split('T')[0]] prints as YYYY-MM-DD. *)
Inductive ResponseBody :=
| Empty
| Message (message : string)
| Failure (message error : string)
| Submitted (message : string) (request_id : Z)
| RoomList (l : list RoomStatus.t)
| Schedule (date : Z) (rooms : list RoomSchedule.t).

(** The CORS headers are the same on every path and are left out. *)
Record Response := { statusCode : Z; responseBody : ResponseBody }.

Definition respond (code : Z) (b : ResponseBody) : M Response :=
  mret {| statusCode := code; responseBody := b |}.

(** [.order(key)] on the answer of a query. *)
Definition order {A} (key : A -> Z) (r : Reply (list A)) : Reply (list A) :=
  match r with
  | inl e => inl e
  | inr l => inr (order_by key l)
  end.

(** ** getRooms *)

Module GetRooms.

Definition handler (f : Faults) (now : Z) (event : Event) : M Response :=
  if String.eqb (httpMethod event) "OPTIONS" then respond 200 Empty
  else if negb (String.eqb (httpMethod event) "GET")
  then respond 405 (Message "Method not allowed")
  else
    try_catch
      (rooms_reply ← select_from rooms (rooms_error f) Room.is_active;
       rooms ← unwrap (order Room.id rooms_reply);
       bookings_reply ←
         select_from bookings (bookings_error f)
           (fun b => (now <=? Booking.end_time b) && (Booking.start_time b <=? now));
       activeBookings ← unwrap bookings_reply;
       let occupiedRoomIds : gset Z :=
         list_to_set (List.map Booking.room_id activeBookings) in
       let roomsWithStatus :=
         List.map (fun room =>
                RoomStatus.mk (Room.id room) (Room.name room)
                  (negb (bool_decide (Room.id room ∈ occupiedRoomIds))))
             rooms in
       respond 200 (RoomList roomsWithStatus))
      (fun e => respond 500 (Failure "Failed to fetch rooms" e)).

End GetRooms.

(** ** getRoomSchedules *)

Module GetRoomSchedules.

(** One round of the [forEach] that groups the bookings by room. *)
Definition group (bookingsByRoom : gmap Z (list Slot.t)) (booking : Booking.t)
  : gmap Z (list Slot.t) :=
  let k := Booking.room_id booking in
  <[k := (default [] (bookingsByRoom !! k)
            ++ [Slot.mk (Booking.student_id booking)
                  (Booking.start_time booking) (Booking.end_time booking)])%list]>
    bookingsByRoom.

Definition handler (tz : Z) (f : Faults) (now : Z) (event : Event) : M Response :=
  if String.eqb (httpMethod event) "OPTIONS" then respond 200 Empty
  else if negb (String.eqb (httpMethod event) "GET")
  then respond 405 (Message "Method not allowed")
  else
    try_catch
      (let todayStart := Time.onDayOf tz now (Some 8) (Some 0) 0 in
       let todayEnd := Time.onDayOf tz now (Some 19) (Some 0) 0 in
       rooms_reply ← select_from rooms (rooms_error f) Room.is_active;
       rooms ← unwrap (order Room.id rooms_reply);
       lo ← toISOString todayStart;
       hi ← toISOString todayEnd;
       bookings_reply ←
         select_from bookings (bookings_error f)
           (fun b => (lo <=? Booking.end_time b) && (Booking.start_time b <=? hi));
       bookings ← unwrap (order Booking.start_time bookings_reply);
       let bookingsByRoom := fold_left group bookings ∅ in
       let roomSchedules :=
         List.map (fun room =>
                RoomSchedule.mk (Room.id room) (Room.name room)
                  (default [] (bookingsByRoom !! Room.id room)))
             rooms in
       respond 200 (Schedule (Time.Day now) roomSchedules))
      (fun e => respond 500 (Failure "Failed to fetch room schedules" e)).

End GetRoomSchedules.

(** ** submitBookingRequest *)

Module SubmitBookingRequest.

(** [!student_id || !room_id || !start_time || !duration] is false: the
    four fields, none of them absent, [null], empty or zero. *)
Definition present (b : Body) : option (string * Z * string * Z) :=
  match student_id b, room_id b, start_time b, duration b with
  | Some sid, Some rid, Some st, Some d =>
      if String.eqb sid "" || (rid =? 0) || String.eqb st "" || (d =? 0)
      then None
      else Some (sid, rid, st, d)
  | _, _, _, _ => None
  end.

(** [parseInt(parts[i])]; a missing part is [undefined], and
    [parseInt(undefined)] is NaN. *)
Definition parsePart (parts : list string) (i : nat) : option Z :=
  match nth_error parts i with
  | Some s => Str.parseInt s
  | None => None
  end.

(** [new Date(today.getFullYear(), today.getMonth(), today.getDate(),
    parseInt(hours), parseInt(minutes))] *)
Definition startDateTime (tz today : Z) (start_time : string) : Time.Date :=
  let parts := Str.split ":" start_time in
  Time.onDayOf tz today (parsePart parts 0) (parsePart parts 1) 0.

Definition endDateTime (start : Time.Date) (duration : Z) : Time.Date :=
  Time.plus start (duration * 60000).

(** [.eq('room_id', room_id).lt('start_time', e).gt('end_time', s)] on
    [bookings] *)
Definition conflicting (room_id s e : Z) (b : Booking.t) : bool :=
  (Booking.room_id b =? room_id)
  && (Booking.start_time b <? e)
  && (Booking.end_time b >? s).

(** [.eq('room_id', room_id).eq('status', 'pending').lt('start_time', e)
    .gt('end_time', s)] on [booking_requests] *)
Definition pending_conflicting (room_id s e : Z) (r : Request.t) : bool :=
  (Request.room_id r =? room_id)
  && is_pending (Request.status r)
  && (Request.start_time r <? e)
  && (Request.end_time r >? s).

(** [today] and [now] are the two readings of the clock, [new Date()] at
    the date computation and at the past check.  The source calls
    [toISOString] on the two dates again for the pending query and for the
    insert; once the first calls have returned these cannot throw and give
    the same instants [e] and [s]. *)
Definition handler (tz : Z) (f : Faults) (today now : Z) (event : Event)
  : M Response :=
  if String.eqb (httpMethod event) "OPTIONS" then respond 200 Empty
  else if negb (String.eqb (httpMethod event) "POST")
  then respond 405 (Message "Method not allowed")
  else
    try_catch
      (b ← match body event with
           | Unparseable e => throw e
           | Parsed b => mret b
           end;
       match present b with
       | None =>
           respond 400
             (Message "Missing required fields: student_id, room_id, start_time, duration")
       | Some (student_id, room_id, start_time, duration) =>
           if negb (Str.match_digits 6 7 student_id)
           then respond 400 (Message "Invalid student ID format. Must be 6-7 digits.")
           else if (duration <? 30) || (duration >? 120)
           then respond 400 (Message "Duration must be between 30 and 120 minutes.")
           else
             room_reply ←
               select_from rooms (rooms_error f) (fun r => Room.id r =? room_id);
             match single room_reply with
             | inl _ => respond 400 (Message "Invalid room ID")
             | inr room =>
                 if negb (Room.is_active room)
                 then respond 400 (Message "This room is currently inactive")
                 else
                   let startDateTime := startDateTime tz today start_time in
                   let endDateTime := endDateTime startDateTime duration in
                   if Time.le startDateTime (Some now)
                   then respond 400 (Message "Start time must be in the future")
                   else
                     e ← toISOString endDateTime;
                     s ← toISOString startDateTime;
                     conflicts_reply ←
                       select_from bookings (bookings_error f)
                         (conflicting room_id s e);
                     conflicts ← unwrap conflicts_reply;
                     if (0 <? length conflicts)%nat
                     then respond 409
                            (Message "This room is already booked for the selected time")
                     else
                       pending_reply ←
                         select_from booking_requests (requests_error f)
                           (pending_conflicting room_id s e);
                       pendingConflicts ← unwrap pending_reply;
                       new_reply ←
                         insert_request (insert_error f)
                           student_id room_id s e pending;
                       newRequest ← unwrap new_reply;
                       respond 200
                         (Submitted "Booking request submitted successfully"
                            (Request.id newRequest))
             end
       end)
      (fun e => respond 500 (Failure "Failed to submit booking request" e)).

End SubmitBookingRequest.

(** ** The specification's vocabulary *)

Module Spec.

(** Half-open overlap of [s1, e1) and [s2, e2). *)
Definition Overlap (s1 e1 s2 e2 : Z) : Prop := s1 < e2 /\ s2 < e1.

(** Exactly 6 or 7 ASCII digits. *)
Definition ValidStudentId (sid : string) : Prop :=
  (String.length sid = 6%nat \/ String.length sid = 7%nat)
  /\ List.Forall (fun a => Str.is_digit a = true) (list_ascii_of_string sid).


(** The rejection reasons of a submission. *)
Inductive Reason :=
| MissingFields | InvalidStudentId | InvalidDuration | InvalidRoom
| InactiveRoom | StartTimeInPast | RoomAlreadyBooked.

Definition reason_message (r : Reason) : string :=
  match r with
  | MissingFields =>
      "Missing required fields: student_id, room_id, start_time, duration"
  | InvalidStudentId => "Invalid student ID format. Must be 6-7 digits."
  | InvalidDuration => "Duration must be between 30 and 120 minutes."
  | InvalidRoom => "Invalid room ID"
  | InactiveRoom => "This room is currently inactive"
  | StartTimeInPast => "Start time must be in the future"
  | RoomAlreadyBooked => "This room is already booked for the selected time"
  end.

Definition reason_status (r : Reason) : Z :=
  match r with
  | RoomAlreadyBooked => 409
  | _ => 400
  end.

(** The room a submission names. *)
Definition room_of (db : Db) (rid : Z) : option Room.t :=
  List.find (fun r => Room.id r =? rid) (rooms db).









(** No two rows of [booking_requests] for one room overlap. *)
Definition NoDoubleBooking (db : Db) : Prop :=
  forall (i j : nat) (r1 r2 : Request.t),
    i <> j ->
    nth_error (booking_requests db) i = Some r1 ->
    nth_error (booking_requests db) j = Some r2 ->
    Request.room_id r1 = Request.room_id r2 ->
    ~ Overlap (Request.start_time r1) (Request.end_time r1)
        (Request.start_time r2) (Request.end_time r2).

(** A row of [booking_requests] that overlaps no confirmed booking of its
    room. *)
Definition ClearOfBookings (db : Db) (r : Request.t) : Prop :=
  forall b, In b (bookings db) ->
    Booking.room_id b = Request.room_id r ->
    ~ Overlap (Booking.start_time b) (Booking.end_time b)
        (Request.start_time r) (Request.end_time r).

(** The answer that rejects a submission for a reason. *)
Definition rejection (r : Reason) : Response :=
  {| statusCode := reason_status r; responseBody := Message (reason_message r) |}.

(** A submission that passes the rules on its fields and its room: the
    four fields are present, the student id is 6 or 7 digits, the duration
    is within 30..120, and the room exists (under a unique id, and the
    store answers the lookup) and is active. *)
Record Eligible (f : Faults) (db : Db) (b : Body)
    (sid : string) (rid : Z) (st : string) (d : Z) : Prop := {
  el_student_id : student_id b = Some sid;
  el_room_id : room_id b = Some rid;
  el_start_time : start_time b = Some st;
  el_duration : duration b = Some d;
  el_present : rid <> 0 /\ st <> "";
  el_student : ValidStudentId sid;
  el_range : 30 <= d <= 120;
  el_lookup : rooms_error f = None;
  el_unique : List.NoDup (List.map Room.id (rooms db));
  el_room : exists room,
      In room (rooms db) /\ Room.id room = rid /\ Room.is_active room = true }.

End Spec.

(** ** Sequences of submissions *)

Record Call := {
  call_tz : Z;
  call_faults : Faults;
  call_today : Z;
  call_now : Z;
  call_event : Event }.

Definition submit (c : Call) : M Response :=
  SubmitBookingRequest.handler (call_tz c) (call_faults c)
    (call_today c) (call_now c) (call_event c).

(** The store after a sequence of submissions, one after the other. *)
Fixpoint run (calls : list Call) (db : Db) : Db :=
  match calls with
  | [] => db
  | c :: calls' => run calls' (snd (submit c db))
  end.

(** A POST event with the four fields. *)
Definition post (sid : string) (rid : Z) (st : string) (d : Z) : Event :=
  {| httpMethod := "POST";
     body := Parsed {| student_id := Some sid; room_id := Some rid;
                       start_time := Some st; duration := Some d |} |}.

Definition get : Event := {| httpMethod := "GET"; body := Unparseable "" |}.

(** ** Repeated reads *)

(** [n] calls of a handler, one after the other: the answers and the store
    left. *)
Fixpoint replay (n : nat) (h : M Response) (db : Db)
  : list (Outcome Response) * Db :=
  match n with
  | O => ([], db)
  | S n' =>
      let '(o, db') := h db in
      let '(os, db'') := replay n' h db' in
      (o :: os, db'')
  end.

(** ** Views of the schedule without the students *)

(** The entry of a booking in the schedule of its room. *)
Definition slot_of (k : Booking.t) : Slot.t :=
  Slot.mk (Booking.student_id k) (Booking.start_time k) (Booking.end_time k).

(** The bookings inside the display window of the schedule. *)
Definition in_window (lo hi : Z) (k : Booking.t) : bool :=
  (lo <=? Booking.end_time k) && (Booking.start_time k <=? hi).

(** The schedule of a room: the entries of its bookings in the window, by
    start time. *)
Definition schedule_of (lo hi : Z) (bs : list Booking.t) (room : Room.t)
  : RoomSchedule.t :=
  RoomSchedule.mk (Room.id room) (Room.name room)
    (List.map slot_of
       (List.filter (fun k => Booking.room_id k =? Room.id room)
          (order_by Booking.start_time (List.filter (in_window lo hi) bs)))).

Definition forget_student (b : Booking.t) : Booking.t :=
  Booking.mk (Booking.id b) (Booking.room_id b) ""
    (Booking.start_time b) (Booking.end_time b).

Definition redact_slot (s : Slot.t) : Slot.t :=
  Slot.mk "" (Slot.start_time s) (Slot.end_time s).

Definition redact_room (r : RoomSchedule.t) : RoomSchedule.t :=
  RoomSchedule.mk (RoomSchedule.id r) (RoomSchedule.name r)
    (List.map redact_slot (RoomSchedule.bookings r)).

Definition redact (o : Outcome Response) : Outcome Response :=
  match o with
  | Return {| statusCode := c; responseBody := Schedule d l |} =>
      Return {| statusCode := c; responseBody := Schedule d (List.map redact_room l) |}
  | _ => o
  end.

(** Two stores that differ at most in the [student_id] of their bookings. *)
Definition same_but_students (db1 db2 : Db) : Prop :=
  rooms db1 = rooms db2
  /\ List.map forget_student (bookings db1) = List.map forget_student (bookings db2)
  /\ booking_requests db1 = booking_requests db2
  /\ next_request_id db1 = next_request_id db2.

(** Two stores that differ at most in their pending requests. *)
Definition same_but_pending (db1 db2 : Db) : Prop :=
  rooms db1 = rooms db2
  /\ bookings db1 = bookings db2
  /\ List.filter (fun r => negb (is_pending (Request.status r))) (booking_requests db1)
     = List.filter (fun r => negb (is_pending (Request.status r))) (booking_requests db2).

(** ** Sample data *)

(** 2024-01-15 00:00 UTC, and a clock time of that day. *)
Definition day0 : Z := 1705276800000.
Definition at_clock (h m : Z) : Z := day0 + h * Time.msPerHour + m * Time.msPerMinute.

Definition sample_db : Db :=
  {| rooms := [ Room.mk 2 "Room B" "students" true;
                Room.mk 1 "Room A" "students" true;
                Room.mk 3 "Room C" "staff" false ];
     bookings := [ Booking.mk 1 1 "654321" (at_clock 10 0) (at_clock 11 0) ];
     booking_requests := [];
     next_request_id := 1 |}.

(** The sample store with a pending request for 10:30-11:30 in room 1. *)
Definition sample_db_pending : Db :=
  {| rooms := rooms sample_db;
     bookings := bookings sample_db;
     booking_requests :=
       [ Request.mk 7 "222222" 1 (at_clock 10 30) (at_clock 11 30) pending ];
     next_request_id := 8 |}.

(** The sample store with another student on its booking. *)
Definition sample_db_renamed : Db :=
  {| rooms := rooms sample_db;
     bookings := [ Booking.mk 1 1 "111111" (at_clock 10 0) (at_clock 11 0) ];
     booking_requests := [];
     next_request_id := 1 |}.

(** A submission at 09:00 UTC on the sample day. *)
Definition sample_call (ev : Event) : Call :=
  {| call_tz := 0; call_faults := no_faults;
     call_today := at_clock 9 0; call_now := at_clock 9 0;
     call_event := ev |}.

(** ** Rows as submissions store them *)

(** The row [r] is the one that the submission [c] stores on the store
    [db]: [c] is a POST whose four fields are given, whose student id the
    pattern test accepts, whose duration is within 30..120 and whose room
    is an active room of [db]; its start instant is after its [now]; and
    [r] carries the student id and the room id as sent, that start, the
    end [duration] minutes later, and the status pending. *)
Definition stored_by (db : Db) (r : Request.t) (c : Call) : Prop :=
  exists (b : Body) (sid : string) (rid : Z) (st : string) (d s : Z),
    httpMethod (call_event c) = "POST"
    /\ body (call_event c) = Parsed b
    /\ student_id b = Some sid /\ room_id b = Some rid
    /\ start_time b = Some st /\ duration b = Some d
    /\ Str.match_digits 6 7 sid = true
    /\ 30 <= d <= 120
    /\ (exists room, In room (rooms db) /\ Room.id room = rid
                     /\ Room.is_active room = true)
    /\ SubmitBookingRequest.startDateTime (call_tz c) (call_today c) st = Some s
    /\ call_now c < s
    /\ Request.student_id r = sid
    /\ Request.room_id r = rid
    /\ Request.start_time r = s
    /\ Request.end_time r = s + d * Time.msPerMinute
    /\ Request.status r = pending.

(** ** The page: string and number built-ins *)

Module Js.

(** [s.replace(/\D/g, '')]: the digits of [s]. *)
Fixpoint removeNonDigits (s : string) : string :=
  match s with
  | EmptyString => EmptyString
  | String a r =>
      if Str.is_digit a then String a (removeNonDigits r) else removeNonDigits r
  end.

(** [s.substring(0, n)] *)
Fixpoint substring0 (n : nat) (s : string) : string :=
  match n, s with
  | S n', String a r => String a (substring0 n' r)
  | _, _ => EmptyString
  end.

(** [s.trimEnd()] and [s.trim()], for the ASCII white space. *)
Fixpoint trimEnd (s : string) : string :=
  match s with
  | EmptyString => EmptyString
  | String a r =>
      match trimEnd r with
      | EmptyString => if Str.is_space a then EmptyString else String a EmptyString
      | r' => String a r'
      end
  end.

Definition trim (s : string) : string := trimEnd (Str.trimStart s).

(** [String(n)] for an integer [n] (below 10^21 in magnitude, where the
    decimal digits are printed in full). *)
Definition toString (n : Z) : string := NilZero.string_of_int (Z.to_int n).

(** [n] characters of [rest], then of [pad] over and over. *)
Fixpoint cycle (n : nat) (pad rest : string) : string :=
  match n with
  | O => EmptyString
  | S n' =>
      match rest with
      | String a r => String a (cycle n' pad r)
      | EmptyString =>
          match pad with
          | String a r => String a (cycle n' pad r)
          | EmptyString => EmptyString
          end
      end
  end.

(** [s.padStart(target, pad)] *)
Definition padStart (target : nat) (pad s : string) : string :=
  if (target <=? String.length s)%nat then s
  else if String.eqb pad "" then s
  else cycle (target - String.length s) pad pad ++ s.

(** The number a string of decimal digits reads as, after [acc]. *)
Fixpoint uint_value (d : Decimal.uint) (acc : Z) : Z :=
  match d with
  | Decimal.Nil => acc
  | Decimal.D0 l => uint_value l (acc * 10 + 0)
  | Decimal.D1 l => uint_value l (acc * 10 + 1)
  | Decimal.D2 l => uint_value l (acc * 10 + 2)
  | Decimal.D3 l => uint_value l (acc * 10 + 3)
  | Decimal.D4 l => uint_value l (acc * 10 + 4)
  | Decimal.D5 l => uint_value l (acc * 10 + 5)
  | Decimal.D6 l => uint_value l (acc * 10 + 6)
  | Decimal.D7 l => uint_value l (acc * 10 + 7)
  | Decimal.D8 l => uint_value l (acc * 10 + 8)
  | Decimal.D9 l => uint_value l (acc * 10 + 9)
  end.

(** The value of [Number(s)], as far as the dates built from it go: an
    integer, NaN, an infinity, or [Unmodelled] for what is spelled with a
    fraction point, an exponent or misplaced signs (a rounded double, or
    NaN). *)
Inductive num := Int (z : Z) | NaN | Infinite | Unmodelled.

Definition is_digit_of (radix : Z) (a : ascii) : bool :=
  match Str.digit_value a with
  | Some d => d <? radix
  | None => false
  end.

(** The digits of a literal in a radix: one at least, and nothing else. *)
Definition literal (radix : Z) (s : string) : num :=
  if forallb (is_digit_of radix) (list_ascii_of_string s)
  then match Str.digits radix s None with
       | Some n => Int n
       | None => NaN
       end
  else NaN.

Definition is_decimal_char (a : ascii) : bool :=
  Str.is_digit a
  || Ascii.eqb a "." || Ascii.eqb a "e" || Ascii.eqb a "E"
  || Ascii.eqb a "+" || Ascii.eqb a "-".

Definition Number (s : string) : num :=
  match trim s with
  | EmptyString => Int 0
  | String "0" (String "b" r) | String "0" (String "B" r) => literal 2 r
  | String "0" (String "o" r) | String "0" (String "O" r) => literal 8 r
  | String "0" (String "x" r) | String "0" (String "X" r) => literal 16 r
  | t =>
      let '(sign, u) :=
        match t with
        | String "-" r => (-1, r)
        | String "+" r => (1, r)
        | _ => (1, t)
        end in
      if String.eqb u "Infinity" then Infinite
      else if forallb Str.is_digit (list_ascii_of_string u)
      then match Str.digits 10 u None with
           | Some n => Int (sign * n)
           | None => NaN
           end
      else if forallb is_decimal_char (list_ascii_of_string t)
      then Unmodelled
      else NaN
  end.

(** An argument of [new Date(y, m, d, hours, minutes)]: NaN and the
    infinities alike give the Invalid Date. *)
Definition dateArg (n : num) : option (option Z) :=
  match n with
  | Int z => Some (Some z)
  | NaN | Infinite => Some None
  | Unmodelled => None
  end.

(** [d > e] on dates; a NaN makes it false. *)
Definition gt (d e : Time.Date) : bool :=
  match d, e with
  | Some a, Some b => b <? a
  | _, _ => false
  end.

End Js.

(** ** The page: the booking form of app.js *)

Module App.

(** The listener of the student-id input:
    [e.target.value.replace(/\D/g, '').substring(0, 7)] *)
Definition formatStudentId (value : string) : string :=
  Js.substring0 7 (Js.removeNonDigits value).

(** The [min] that [setMinimumStartTime] gives the start-time input. *)
Definition setMinimumStartTime (tz now : Z) : string :=
  let hours := Js.padStart 2 "0" (Js.toString (Time.getHours tz now)) in
  let minutes := Js.padStart 2 "0" (Js.toString (Time.getMinutes tz now)) in
  hours ++ ":" ++ minutes.

Definition validateStudentId (id : string) : bool := Str.match_digits 6 7 id.

(** [timeString.split(':').map(Number)], of which the first two are the
    hours and the minutes; a missing one is [undefined], a NaN for the
    date.  [None]: a part is outside the model of [Number]. *)
Definition isStartTimeValid (tz now : Z) (timeString : string) : option bool :=
  let parts := List.map Js.Number (Str.split ":" timeString) in
  match Js.dateArg (nth 0 parts Js.NaN), Js.dateArg (nth 1 parts Js.NaN) with
  | Some hours, Some minutes =>
      let selectedTime := Time.onDayOf tz now hours minutes 0 in
      Some (Js.gt selectedTime (Some now))
  | _, _ => None
  end.




(** The room selector of the form: its content and whether it is
    disabled. *)
Record Select := { innerHTML : string; disabled : bool }.

Definition quote : string := String "034"%char EmptyString.
Definition newline : string := String "010"%char EmptyString.

Section Page.

(** [escapeHtml], which goes through the DOM of the browser. *)
Variable escapeHtml : string -> string.

(** The template of one option of the selector. *)
Definition option_html (room : RoomStatus.t) : string :=
  newline ++ "            <option value=" ++ quote
  ++ Js.toString (RoomStatus.id room) ++ quote ++ ">"
  ++ escapeHtml (RoomStatus.name room) ++ "</option>" ++ newline ++ "        ".

(** [updateRoomSelect] on the rooms that getRooms answered. *)
Definition updateRoomSelect (rooms : list RoomStatus.t) : Select :=
  let availableRooms := List.filter RoomStatus.is_available rooms in
  let html :=
    "<option value=" ++ quote ++ quote ++ ">Choose an available room...</option>"
    ++ String.concat "" (List.map option_html availableRooms) in
  if Nat.eqb (length availableRooms) 0
  then {| innerHTML :=
            "<option value=" ++ quote ++ quote ++ ">No rooms available</option>";
          disabled := true |}
  else {| innerHTML := html; disabled := false |}.

End Page.

End App.

(** * Properties *)

(** ** The student-id pattern *)

Lemma match_digits_spec (s : string) : forall lo hi : nat,
  Str.match_digits lo hi s = true <->
  (lo <= String.length s <= hi)%nat
  /\ List.Forall (fun a => Str.is_digit a = true) (list_ascii_of_string s).
Proof.
  induction s as [|a r IH]; intros lo hi; simpl.
  - destruct lo; simpl.
    + split; [intros _; split; [lia | constructor] | reflexivity].
    + split; [discriminate | intros [H _]; lia].
  - destruct (Str.is_digit a) eqn:Ha.
    + destruct hi as [|hi'].
      * split; [discriminate | intros [H _]; lia].
      * rewrite IH. split.
        -- intros [H1 H2]. split; [lia | constructor; assumption].
        -- intros [H1 H2]. inversion H2; subst. split; [lia | assumption].
    + split; [discriminate |].
      intros [_ H]. inversion H; subst. congruence.
Qed.

Lemma match_digits_valid (sid : string) :
  Str.match_digits 6 7 sid = true <-> Spec.ValidStudentId sid.
Proof.
  rewrite match_digits_spec. unfold Spec.ValidStudentId.
  split; intros [H1 H2]; (split; [lia | assumption]).
Qed.


(** ** Ordered queries *)

Section Ordering.

Context {A : Type} (key : A -> Z).

Lemma insert_by_perm (x : A) (l : list A) :
  Permutation (insert_by key x l) (x :: l).
Proof.
  induction l as [|y l IH]; simpl.
  - reflexivity.
  - destruct (key y <? key x).
    + rewrite IH. apply perm_swap.
    + reflexivity.
Qed.

Lemma order_by_perm (l : list A) : Permutation (order_by key l) l.
Proof.
  induction l as [|x l IH]; simpl.
  - reflexivity.
  - rewrite insert_by_perm. constructor. exact IH.
Qed.

Lemma insert_by_sorted (x : A) (l : list A) :
  StronglySorted (key_le key) l -> StronglySorted (key_le key) (insert_by key x l).
Proof.
  induction l as [|y l IH]; simpl; intros Hs.
  - repeat constructor.
  - inversion Hs as [|? ? Hl Hy]; subst.
    destruct (Z.ltb_spec (key y) (key x)) as [Hlt | Hge].
    + constructor; [apply IH; assumption |].
      rewrite insert_by_perm.
      constructor; [unfold key_le; lia | assumption].
    + constructor; [assumption |].
      constructor; [exact Hge |].
      eapply List.Forall_impl; [| exact Hy].
      unfold key_le. intros z Hz. lia.
Qed.

Lemma order_by_sorted (l : list A) : StronglySorted (key_le key) (order_by key l).
Proof.
  induction l as [|x l IH]; simpl.
  - constructor.
  - apply insert_by_sorted. exact IH.
Qed.

Lemma order_by_In (x : A) (l : list A) : In x (order_by key l) <-> In x l.
Proof.
  split; apply Permutation_in; [| symmetry]; apply order_by_perm.
Qed.

End Ordering.

Lemma insert_by_map {A B} (f : A -> B) (kb : B -> Z) (ka : A -> Z) :
  (forall x, kb (f x) = ka x) ->
  forall x l, insert_by kb (f x) (List.map f l) = List.map f (insert_by ka x l).
Proof.
  intros Hk x l. induction l as [|y l IH]; simpl.
  - reflexivity.
  - rewrite !Hk. destruct (ka y <? ka x); simpl; [rewrite IH |]; reflexivity.
Qed.

Lemma order_by_map {A B} (f : A -> B) (kb : B -> Z) (ka : A -> Z) :
  (forall x, kb (f x) = ka x) ->
  forall l, order_by kb (List.map f l) = List.map f (order_by ka l).
Proof.
  intros Hk l. induction l as [|x l IH]; simpl.
  - reflexivity.
  - rewrite IH. apply insert_by_map. exact Hk.
Qed.

Lemma filter_map_comm {A B} (f : A -> B) (pb : B -> bool) (pa : A -> bool) :
  (forall x, pb (f x) = pa x) ->
  forall l, List.filter pb (List.map f l) = List.map f (List.filter pa l).
Proof.
  intros Hp l. induction l as [|x l IH]; simpl.
  - reflexivity.
  - rewrite Hp. destruct (pa x); simpl; rewrite IH; reflexivity.
Qed.

(** ** Looking a room up *)

Lemma filter_none_find {A} (p : A -> bool) (l : list A) :
  List.filter p l = [] <-> List.find p l = None.
Proof.
  induction l as [|x l IH]; simpl.
  - tauto.
  - destruct (p x); [split; discriminate | exact IH].
Qed.

Lemma filter_id_unique (rid : Z) (l : list Room.t) :
  List.NoDup (List.map Room.id l) ->
  forall room, List.find (fun r => Room.id r =? rid) l = Some room ->
  List.filter (fun r => Room.id r =? rid) l = [room].
Proof.
  induction l as [|x l IH]; simpl; intros Hnd room Hf.
  - discriminate.
  - inversion Hnd as [|? ? Hx Hl]; subst.
    destruct (Z.eqb_spec (Room.id x) rid) as [E | E].
    + injection Hf as ->. f_equal.
      apply filter_none_find. destruct (find _ l) eqn:F; [|reflexivity].
      apply find_some in F. destruct F as [Hin Hid].
      apply Z.eqb_eq in Hid. exfalso. apply Hx.
      rewrite E, <- Hid. apply in_map. exact Hin.
    + apply IH; assumption.
Qed.

Lemma single_answer_room (rid : Z) (db : Db) :
  List.NoDup (List.map Room.id (rooms db)) ->
  single (answer None (fun r => Room.id r =? rid) (rooms db))
  = match Spec.room_of db rid with
    | Some room => inr room
    | None => inl "JSON object requested, multiple (or no) rows returned"
    end.
Proof.
  intros Hnd. unfold Spec.room_of, answer.
  destruct (find _ (rooms db)) eqn:F.
  - rewrite (filter_id_unique rid _ Hnd _ F). reflexivity.
  - apply filter_none_find in F. rewrite F. reflexivity.
Qed.

(** ** Clock strings and the start instant *)

Ltac unfold_time :=
  unfold Time.getHours, Time.getMinutes, Time.onDayOf, Time.plus, Time.le in *;
  unfold Time.TimeClip, Time.UTC, Time.LocalTime, Time.MakeDate, Time.MakeTime,
    Time.Day, Time.TimeWithinDay in *;
  unfold Time.msPerDay, Time.msPerHour, Time.msPerMinute, Time.maxTime in *.

Lemma clock_parts_table :
  forallb (fun h =>
    forallb (fun m =>
      match SubmitBookingRequest.parsePart (Str.split ":" (Str.clock h m)) 0,
            SubmitBookingRequest.parsePart (Str.split ":" (Str.clock h m)) 1 with
      | Some a, Some b => (a =? h) && (b =? m)
      | _, _ => false
      end) (seqZ 0 60)) (seqZ 0 24) = true.
Proof. vm_compute. reflexivity. Qed.

Lemma clock_parts (h m : Z) :
  0 <= h < 24 -> 0 <= m < 60 ->
  SubmitBookingRequest.parsePart (Str.split ":" (Str.clock h m)) 0 = Some h
  /\ SubmitBookingRequest.parsePart (Str.split ":" (Str.clock h m)) 1 = Some m.
Proof.
  intros Hh Hm.
  pose proof clock_parts_table as T.
  rewrite forallb_forall in T.
  specialize (T h). rewrite <- list_elem_of_In, elem_of_seqZ in T.
  specialize (T ltac:(lia)).
  rewrite forallb_forall in T.
  specialize (T m). rewrite <- list_elem_of_In, elem_of_seqZ in T.
  specialize (T ltac:(lia)).
  destruct (SubmitBookingRequest.parsePart _ 0) as [a|]; [|discriminate].
  destruct (SubmitBookingRequest.parsePart _ 1) as [b|]; [|discriminate].
  apply andb_prop in T. destruct T as [Ta Tb].
  apply Z.eqb_eq in Ta, Tb. subst. split; reflexivity.
Qed.

Lemma startDateTime_clock (tz today h m : Z) :
  0 <= h < 24 -> 0 <= m < 60 ->
  SubmitBookingRequest.startDateTime tz today (Str.clock h m)
  = Time.TimeClip
      (Time.Day (Time.LocalTime tz today) * Time.msPerDay
       + (h * Time.msPerHour + m * Time.msPerMinute) - tz).
Proof.
  intros Hh Hm. unfold SubmitBookingRequest.startDateTime.
  destruct (clock_parts h m Hh Hm) as [-> ->].
  unfold Time.onDayOf, Time.UTC, Time.MakeDate, Time.MakeTime.
  f_equal. lia.
Qed.

(** An instant at a clock time of a day lies on that day. *)
Lemma clock_time_same_day (tz today h m : Z) :
  0 <= h < 24 -> 0 <= m < 60 ->
  Time.Day (Time.LocalTime tz
    (Time.Day (Time.LocalTime tz today) * Time.msPerDay
     + (h * Time.msPerHour + m * Time.msPerMinute) - tz))
  = Time.Day (Time.LocalTime tz today).
Proof.
  intros Hh Hm. unfold_time.
  symmetry. apply (Z.div_unique _ _ _ (h * 3600000 + m * 60000)); lia.
Qed.

Lemma clock_time_bounds (tz today h m : Z) :
  0 <= h < 24 -> 0 <= m < 60 ->
  today - Time.msPerDay
  < Time.Day (Time.LocalTime tz today) * Time.msPerDay
    + (h * Time.msPerHour + m * Time.msPerMinute) - tz
  < today + Time.msPerDay.
Proof.
  intros Hh Hm. unfold_time.
  Z.div_mod_to_equations. lia.
Qed.

(** The clock minute of an instant names its minute's first instant. *)
Lemma current_minute (tz today : Z) :
  0 <= Time.getHours tz today < 24
  /\ 0 <= Time.getMinutes tz today < 60
  /\ Time.Day (Time.LocalTime tz today) * Time.msPerDay
     + (Time.getHours tz today * Time.msPerHour
        + Time.getMinutes tz today * Time.msPerMinute) - tz
     = today - (today + tz) mod Time.msPerMinute.
Proof.
  unfold_time.
  set (L := today + tz). set (w := L mod 86400000).
  assert (0 <= w < 86400000) as Hw by (apply Z.mod_pos_bound; lia).
  assert (L = 86400000 * (L / 86400000) + w) as HL by (apply Z.div_mod; lia).
  assert (w / 60000 / 60 = w / 3600000) as Hk
    by (rewrite Z.div_div by lia; reflexivity).
  assert (w / 60000 = 60 * (w / 60000 / 60) + (w / 60000) mod 60) as Hq
    by (apply Z.div_mod; lia).
  assert (w = 60000 * (w / 60000) + w mod 60000) as Hr by (apply Z.div_mod; lia).
  assert (w mod 60000 = L mod 60000) as Hm.
  { unfold w. apply Z.mod_mod_divide. exists 1440. reflexivity. }
  assert (0 <= (w / 60000) mod 60 < 60) as Bm by (apply Z.mod_pos_bound; lia).
  assert (0 <= w mod 60000 < 60000) as Br by (apply Z.mod_pos_bound; lia).
  assert (0 <= w / 3600000 < 24) as Bh.
  { split; [apply Z.div_pos; lia | apply Z.div_lt_upper_bound; lia]. }
  repeat split; try lia.
Qed.

(** ** Running a handler *)

Ltac unfold_M :=
  unfold try_catch, respond, unwrap, select_from, insert_request, toISOString,
    throw, mbind, M_bind, mret, M_ret in *.

(** Case analysis on the outermost test of the goal whose scrutinee holds
    no test itself. *)
Ltac step_match :=
  match goal with
  | |- context [match ?x with _ => _ end] =>
      lazymatch x with
      | context [match _ with _ => _ end] => fail
      | _ => destruct x eqn:?
      end
  end.

Ltac run_handler := unfold_M; repeat (step_match; simpl).

Lemma app_one_neq {A} (l : list A) (x : A) : (l ++ [x])%list <> l.
Proof.
  intros H. apply (f_equal (@length A)) in H.
  rewrite length_app in H. simpl in H. lia.
Qed.

Lemma no_rows_filter {A} (p : A -> bool) (l : list A) :
  (0 <? length (List.filter p l))%nat = false ->
  forall x, In x l -> p x = false.
Proof.
  intros H x Hin. destruct (p x) eqn:E; [|reflexivity].
  assert (In x (List.filter p l)) as Hf by (apply filter_In; auto).
  destruct (List.filter p l); [contradiction | discriminate].
Qed.

Lemma not_conflicting_clear (rid s e : Z) (b : Booking.t) :
  SubmitBookingRequest.conflicting rid s e b = false ->
  Booking.room_id b = rid ->
  ~ Spec.Overlap (Booking.start_time b) (Booking.end_time b) s e.
Proof.
  unfold SubmitBookingRequest.conflicting, Spec.Overlap. intros H E [H1 H2].
  apply Z.eqb_eq in E. rewrite E in H. simpl in H.
  apply andb_false_iff in H. destruct H as [H | H]; lia.
Qed.

(** ** Submissions and the store *)

(** C10. A submission persists a new row of [booking_requests] exactly
    when it answers 200: then one pending row is appended; on every other
    answer (400, 405, 409, 500) the store is left as it was.  The handler
    always answers.  (The OPTIONS preflight answers 200 with an empty body
    and is not a submission.) *)
Theorem submit_persists_iff_200 (tz : Z) (f : Faults) (today now : Z)
    (ev : Event) (db : Db) :
  httpMethod ev <> "OPTIONS" ->
  exists resp,
    fst (SubmitBookingRequest.handler tz f today now ev db) = Return resp
    /\ rooms (snd (SubmitBookingRequest.handler tz f today now ev db)) = rooms db
    /\ bookings (snd (SubmitBookingRequest.handler tz f today now ev db)) = bookings db
    /\ (statusCode resp = 200 <->
        exists row,
          booking_requests (snd (SubmitBookingRequest.handler tz f today now ev db))
          = (booking_requests db ++ [row])%list
          /\ Request.status row = pending)
    /\ (statusCode resp <> 200 ->
        In (statusCode resp) [400; 405; 409; 500]
        /\ snd (SubmitBookingRequest.handler tz f today now ev db) = db).
Proof.
  intros Hm. unfold SubmitBookingRequest.handler.
  destruct (String.eqb_spec (httpMethod ev) "OPTIONS") as [|_]; [contradiction|].
  run_handler.
  all: eexists; (split; [reflexivity|]); simpl.
  all: repeat split; try congruence; try discriminate; eauto 6;
    try (intros [row [Hrow _]]; exfalso; symmetry in Hrow;
         eapply app_one_neq; eassumption).
Qed.

Lemma submit_persists_iff_200_witness :
  httpMethod (post "123456" 1 "11:00" 60) <> "OPTIONS"
  /\ exists resp,
    fst (submit (sample_call (post "123456" 1 "11:00" 60)) sample_db) = Return resp
    /\ rooms (snd (submit (sample_call (post "123456" 1 "11:00" 60)) sample_db))
       = rooms sample_db
    /\ bookings (snd (submit (sample_call (post "123456" 1 "11:00" 60)) sample_db))
       = bookings sample_db
    /\ (statusCode resp = 200 <->
        exists row,
          booking_requests (snd (submit (sample_call (post "123456" 1 "11:00" 60)) sample_db))
          = (booking_requests sample_db ++ [row])%list
          /\ Request.status row = pending)
    /\ (statusCode resp <> 200 ->
        In (statusCode resp) [400; 405; 409; 500]
        /\ snd (submit (sample_call (post "123456" 1 "11:00" 60)) sample_db) = sample_db).
Proof.
  split; [discriminate |].
  apply (submit_persists_iff_200 0 no_faults (at_clock 9 0) (at_clock 9 0)
           (post "123456" 1 "11:00" 60) sample_db).
  discriminate.
Defined.

(** The preflight and the other methods leave the store alone. *)
Lemma submit_other_methods (tz : Z) (f : Faults) (today now : Z)
    (ev : Event) (db : Db) :
  httpMethod ev <> "POST" ->
  snd (SubmitBookingRequest.handler tz f today now ev db) = db.
Proof.
  intros Hm. unfold SubmitBookingRequest.handler.
  destruct (String.eqb_spec (httpMethod ev) "OPTIONS"); [reflexivity|].
  destruct (String.eqb_spec (httpMethod ev) "POST"); [contradiction|].
  reflexivity.
Qed.

Lemma answer_inr {A} (fault : option string) (keep : A -> bool)
    (rows l : list A) :
  answer fault keep rows = inr l -> fault = None /\ l = List.filter keep rows.
Proof.
  unfold answer. destruct fault; [discriminate |].
  intros H. injection H as <-. split; reflexivity.
Qed.

(** One submission: rooms and bookings stay, and at most one pending row,
    clear of the confirmed bookings of its room, is appended. *)
Lemma submit_step (tz : Z) (f : Faults) (today now : Z) (ev : Event) (db : Db) :
  rooms (snd (SubmitBookingRequest.handler tz f today now ev db)) = rooms db
  /\ bookings (snd (SubmitBookingRequest.handler tz f today now ev db)) = bookings db
  /\ (booking_requests (snd (SubmitBookingRequest.handler tz f today now ev db))
      = booking_requests db
      \/ exists row,
          booking_requests (snd (SubmitBookingRequest.handler tz f today now ev db))
          = (booking_requests db ++ [row])%list
          /\ Request.status row = pending
          /\ Spec.ClearOfBookings db row).
Proof.
  unfold SubmitBookingRequest.handler. run_handler.
  all: try (repeat split; auto; fail).
  split; [reflexivity | split; [reflexivity | right]].
  eexists. split; [reflexivity | split; [reflexivity |]].
  intros k Hin Hroom. simpl in *.
  match goal with
  | H : answer (bookings_error f) _ _ = inr _ |- _ =>
      apply answer_inr in H; destruct H as [_ ->]
  end.
  eapply not_conflicting_clear; [| exact Hroom].
  eapply no_rows_filter; eassumption.
Qed.

Lemma clear_of_same_bookings (db db' : Db) (r : Request.t) :
  bookings db' = bookings db ->
  Spec.ClearOfBookings db' r -> Spec.ClearOfBookings db r.
Proof.
  unfold Spec.ClearOfBookings. intros E H b Hin. apply H. rewrite E. exact Hin.
Qed.

(** C1 (as amended). For every sequence of submissions and every initial
    store: the rooms and the confirmed bookings are never changed, the
    requests already stored are kept, and every request a submission adds
    is pending and overlaps no confirmed booking of its room. *)
Theorem accepted_requests_clear_of_bookings (calls : list Call) (db : Db) :
  rooms (run calls db) = rooms db
  /\ bookings (run calls db) = bookings db
  /\ exists new,
      booking_requests (run calls db) = (booking_requests db ++ new)%list
      /\ List.Forall
           (fun r => Request.status r = pending /\ Spec.ClearOfBookings db r) new.
Proof.
  revert db. induction calls as [|c calls IH]; intros db; simpl.
  - split; [reflexivity | split; [reflexivity |]].
    exists []. split; [symmetry; apply app_nil_r | constructor].
  - destruct (submit_step (call_tz c) (call_faults c) (call_today c)
                (call_now c) (call_event c) db) as (Hr & Hb & Hq).
    fold (submit c) in Hr, Hb, Hq.
    destruct (IH (snd (submit c db))) as (IHr & IHb & new & IHq & IHnew).
    split; [congruence | split; [congruence |]].
    assert (List.Forall
              (fun r => Request.status r = pending /\ Spec.ClearOfBookings db r) new)
      as Hnew.
    { eapply List.Forall_impl; [| exact IHnew].
      intros r [Hp Hc]. split; [exact Hp |].
      eapply clear_of_same_bookings; eassumption. }
    destruct Hq as [Hq | (row & Hq & Hp & Hc)].
    + exists new. rewrite IHq, Hq. split; [reflexivity | exact Hnew].
    + exists (row :: new). rewrite IHq, Hq, <- app_assoc. simpl.
      split; [reflexivity |]. constructor; [split; assumption | exact Hnew].
Qed.

(** C1 as stated fails: the same slot of one room, submitted twice, is
    accepted twice (both answers are 200), and the two stored intervals
    overlap. *)
Lemma double_booking_accepted :
  fst (submit (sample_call (post "123456" 1 "14:00" 60)) sample_db)
  = Return {| statusCode := 200;
              responseBody := Submitted "Booking request submitted successfully" 1 |}
  /\ fst (submit (sample_call (post "123456" 1 "14:00" 60))
            (snd (submit (sample_call (post "123456" 1 "14:00" 60)) sample_db)))
     = Return {| statusCode := 200;
                 responseBody := Submitted "Booking request submitted successfully" 2 |}
  /\ ~ (forall (calls : list Call) (db : Db),
          booking_requests db = [] -> Spec.NoDoubleBooking (run calls db)).
Proof.
  split; [vm_compute; reflexivity |].
  split; [vm_compute; reflexivity |].
  intros H.
  pose (c := sample_call (post "123456" 1 "14:00" 60)).
  apply (H [c; c] sample_db eq_refl 0%nat 1%nat
           (Request.mk 1 "123456" 1 (at_clock 14 0) (at_clock 15 0) pending)
           (Request.mk 2 "123456" 1 (at_clock 14 0) (at_clock 15 0) pending)).
  - discriminate.
  - vm_compute. reflexivity.
  - vm_compute. reflexivity.
  - reflexivity.
  - unfold Spec.Overlap. vm_compute. split; reflexivity.
Qed.

(** ** Eligible submissions *)

Lemma room_of_In (db : Db) (room : Room.t) :
  List.NoDup (List.map Room.id (rooms db)) ->
  In room (rooms db) ->
  Spec.room_of db (Room.id room) = Some room.
Proof.
  unfold Spec.room_of. induction (rooms db) as [|x l IH]; simpl; intros Hnd Hin.
  - contradiction.
  - inversion Hnd as [|? ? Hx Hl]; subst.
    destruct Hin as [-> | Hin].
    + rewrite Z.eqb_refl. reflexivity.
    + destruct (Z.eqb_spec (Room.id x) (Room.id room)) as [E | E].
      * exfalso. apply Hx. rewrite E. apply in_map. exact Hin.
      * apply IH; assumption.
Qed.

Lemma eligible_steps (f : Faults) (db : Db) (b : Body)
    (sid : string) (rid : Z) (st : string) (d : Z) :
  Spec.Eligible f db b sid rid st d ->
  SubmitBookingRequest.present b = Some (sid, rid, st, d)
  /\ negb (Str.match_digits 6 7 sid) = false
  /\ (d <? 30) || (d >? 120) = false
  /\ exists room,
      single (answer (rooms_error f) (fun r => Room.id r =? rid) (rooms db)) = inr room
      /\ negb (Room.is_active room) = false.
Proof.
  intros [Hs Hr Ht Hd [Hrid Hst] Hv Hrange Hl Hu (room & Hin & Hid & Hact)].
  assert (Str.match_digits 6 7 sid = true) as Hm by (apply match_digits_valid; exact Hv).
  repeat split.
  - unfold SubmitBookingRequest.present. rewrite Hs, Hr, Ht, Hd.
    destruct (String.eqb_spec sid "") as [-> | _]; [discriminate Hm |].
    destruct (Z.eqb_spec rid 0); [contradiction |].
    destruct (String.eqb_spec st ""); [contradiction |].
    destruct (Z.eqb_spec d 0); [lia | reflexivity].
  - rewrite Hm. reflexivity.
  - apply orb_false_iff. split; lia.
  - exists room. rewrite Hl, (single_answer_room rid db Hu), <- Hid.
    rewrite (room_of_In db room Hu Hin), Hact. split; reflexivity.
Qed.

Lemma filter_nil_iff {A} (p : A -> bool) (l : list A) :
  (0 <? length (List.filter p l))%nat = true <-> exists x, In x l /\ p x = true.
Proof.
  split.
  - destruct (List.filter p l) as [|x t] eqn:E; [discriminate |].
    intros _. exists x. apply filter_In. rewrite E. left. reflexivity.
  - intros (x & Hin & Hp).
    assert (In x (List.filter p l)) as Hf by (apply filter_In; auto).
    destruct (List.filter p l); [contradiction | reflexivity].
Qed.

Lemma conflicting_spec (rid s e : Z) (k : Booking.t) :
  SubmitBookingRequest.conflicting rid s e k = true <->
  Booking.room_id k = rid /\ Booking.start_time k < e /\ Booking.end_time k > s.
Proof.
  unfold SubmitBookingRequest.conflicting.
  rewrite !andb_true_iff, Z.eqb_eq, Z.ltb_lt, Z.gtb_ltb, Z.ltb_lt. lia.
Qed.

(** Entering the handler with an eligible POST. *)
Ltac enter H :=
  let R := fresh "room" in
  destruct (eligible_steps _ _ _ _ _ _ _ H) as (-> & -> & -> & R & -> & ->).

(** C2. For a submission that passes the earlier rules and whose bookings
    query is answered, the answer is 409 RoomAlreadyBooked exactly when a
    confirmed booking of the room has start_time < end instant and
    end_time > start instant; bookings that only touch the interval (ending
    at or before its start, or starting at or after its end) do not make
    it a conflict. *)
Theorem conflict_iff_overlap (tz : Z) (f : Faults) (today now : Z) (ev : Event)
    (db : Db) (b : Body) (sid : string) (rid : Z) (st : string) (d s e : Z) :
  httpMethod ev = "POST" ->
  body ev = Parsed b ->
  Spec.Eligible f db b sid rid st d ->
  SubmitBookingRequest.startDateTime tz today st = Some s ->
  SubmitBookingRequest.endDateTime (Some s) d = Some e ->
  now < s ->
  bookings_error f = None ->
  (fst (SubmitBookingRequest.handler tz f today now ev db)
   = Return (Spec.rejection Spec.RoomAlreadyBooked)
   <-> exists k, In k (bookings db) /\ Booking.room_id k = rid
                 /\ Booking.start_time k < e /\ Booking.end_time k > s)
  /\ ((forall k, In k (bookings db) -> Booking.room_id k = rid ->
         Booking.end_time k <= s \/ e <= Booking.start_time k) ->
      forall resp,
        fst (SubmitBookingRequest.handler tz f today now ev db) = Return resp ->
        statusCode resp <> 409).
Proof.
  intros Hm Hb Hel Hs He Hnow Hbk.
  unfold SubmitBookingRequest.handler. rewrite Hm, Hb. simpl.
  unfold_M. enter Hel.
  rewrite Hs, He. simpl.
  destruct (Z.leb_spec s now) as [|_]; [lia |].
  rewrite Hbk. unfold answer. simpl.
  destruct (0 <? length (List.filter _ (bookings db)))%nat eqn:C.
  - simpl. apply filter_nil_iff in C. destruct C as (k & Hin & Hk).
    apply conflicting_spec in Hk. split.
    + split; [intros _; exists k; tauto | reflexivity].
    + intros Hall resp _. destruct (Hall k Hin) as [|]; lia.
  - assert (forall k, In k (bookings db) ->
              SubmitBookingRequest.conflicting rid s e k = false) as Hno
      by (apply no_rows_filter; exact C).
    split.
    + split.
      * run_handler; discriminate.
      * intros (k & Hin & Hk). apply Hno in Hin.
        assert (SubmitBookingRequest.conflicting rid s e k = true)
          by (apply conflicting_spec; exact Hk).
        congruence.
    + intros _ resp. run_handler; intros H; injection H as <-; discriminate.
Qed.

(** C6. A submission that passes the rules on its fields and its room is
    rejected with StartTimeInPast exactly when its start instant is valid
    and not after [now]; a start time equal to the current clock minute is
    rejected so. *)
Theorem past_start_rejected (tz : Z) (f : Faults) (today now : Z) (ev : Event)
    (db : Db) (b : Body) (sid : string) (rid : Z) (st : string) (d : Z) :
  httpMethod ev = "POST" ->
  body ev = Parsed b ->
  Spec.Eligible f db b sid rid st d ->
  (fst (SubmitBookingRequest.handler tz f today now ev db)
   = Return (Spec.rejection Spec.StartTimeInPast)
   <-> exists s, SubmitBookingRequest.startDateTime tz today st = Some s /\ s <= now)
  /\ (st = Str.clock (Time.getHours tz today) (Time.getMinutes tz today) ->
      today <= now ->
      Z.abs today + Time.msPerMinute <= Time.maxTime ->
      fst (SubmitBookingRequest.handler tz f today now ev db)
      = Return (Spec.rejection Spec.StartTimeInPast)).
Proof.
  intros Hm Hb Hel.
  assert (fst (SubmitBookingRequest.handler tz f today now ev db)
          = Return (Spec.rejection Spec.StartTimeInPast)
          <-> exists s, SubmitBookingRequest.startDateTime tz today st = Some s
                        /\ s <= now) as Hiff.
  { unfold SubmitBookingRequest.handler. rewrite Hm, Hb. simpl.
    unfold_M. enter Hel.
    destruct (SubmitBookingRequest.startDateTime tz today st) as [s|] eqn:Hs; simpl.
    - destruct (Z.leb_spec s now) as [Hle | Hgt].
      + split; [intros _; exists s; split; [reflexivity | exact Hle] | reflexivity].
      + split.
        * run_handler; discriminate.
        * intros (s' & E & Hle). injection E as <-. lia.
    - split; [discriminate | intros (s' & E & _); discriminate]. }
  split; [exact Hiff |].
  intros -> Htoday Hrange. apply Hiff.
  destruct (current_minute tz today) as (Hh & Hmin & E).
  rewrite (startDateTime_clock tz today _ _ Hh Hmin), E.
  exists (today - (today + tz) mod Time.msPerMinute).
  assert (0 <= (today + tz) mod Time.msPerMinute < Time.msPerMinute) as B
    by (apply Z.mod_pos_bound; reflexivity).
  split; [| lia].
  unfold Time.TimeClip.
  destruct (Z.leb_spec (Z.abs (today - (today + tz) mod Time.msPerMinute)) Time.maxTime);
    [reflexivity | lia].
Qed.

(** C4 (as amended). A submission that passes the rules on its fields and
    its room, with a start clock HH:MM, a start instant after [now] and no
    overlapping confirmed booking of the room, succeeds when the store
    answers its calls: it persists one pending request whose interval is
    [start, start + duration), where start is the clock time HH:MM of the
    current calendar date (nothing else of the body is read); the end is
    on that date too when start + duration comes before midnight. *)
Theorem accepted_interval (tz : Z) (f : Faults) (today now : Z) (ev : Event)
    (db : Db) (b : Body) (sid : string) (rid h m d s : Z) :
  httpMethod ev = "POST" ->
  body ev = Parsed b ->
  Spec.Eligible f db b sid rid (Str.clock h m) d ->
  0 <= h < 24 -> 0 <= m < 60 ->
  Z.abs today + 2 * Time.msPerDay <= Time.maxTime ->
  s = Time.Day (Time.LocalTime tz today) * Time.msPerDay
      + (h * Time.msPerHour + m * Time.msPerMinute) - tz ->
  now < s ->
  (forall k, In k (bookings db) -> Booking.room_id k = rid ->
     ~ Spec.Overlap (Booking.start_time k) (Booking.end_time k)
         s (s + d * Time.msPerMinute)) ->
  bookings_error f = None -> requests_error f = None -> insert_error f = None ->
  SubmitBookingRequest.handler tz f today now ev db
  = (Return {| statusCode := 200;
               responseBody :=
                 Submitted "Booking request submitted successfully"
                   (next_request_id db) |},
     {| rooms := rooms db;
        bookings := bookings db;
        booking_requests :=
          (booking_requests db
           ++ [Request.mk (next_request_id db) sid rid s
                 (s + d * Time.msPerMinute) pending])%list;
        next_request_id := next_request_id db + 1 |})
  /\ Time.Day (Time.LocalTime tz s) = Time.Day (Time.LocalTime tz today)
  /\ (h * 60 + m + d < 1440 ->
      Time.Day (Time.LocalTime tz (s + d * Time.msPerMinute))
      = Time.Day (Time.LocalTime tz today)).
Proof.
  intros Hm Hb Hel Hh Hmin Hrange Hs Hnow Hfree Hbk Hrq Hins.
  pose proof (clock_time_bounds tz today h m Hh Hmin) as Bs. rewrite <- Hs in Bs.
  pose proof (Spec.el_range _ _ _ _ _ _ _ Hel) as Hd.
  split; [| split].
  - unfold SubmitBookingRequest.handler. rewrite Hm, Hb. simpl.
    unfold_M. enter Hel.
    rewrite (startDateTime_clock tz today h m Hh Hmin), <- Hs.
    unfold SubmitBookingRequest.endDateTime, Time.plus, Time.TimeClip.
    destruct (Z.leb_spec (Z.abs s) Time.maxTime) as [_ | Hbad];
      [| unfold Time.msPerDay in *; lia].
    simpl.
    destruct (Z.leb_spec s now) as [| _]; [lia |].
    destruct (Z.leb_spec (Z.abs (s + d * 60000)) Time.maxTime) as [_ | Hbad];
      [| unfold Time.msPerDay in *; lia].
    rewrite Hbk, Hrq, Hins. unfold answer. simpl.
    assert (List.filter (SubmitBookingRequest.conflicting rid s (s + d * 60000))
              (bookings db) = []) as ->.
    { destruct (List.filter _ (bookings db)) as [|k t] eqn:F; [reflexivity |].
      assert (In k (k :: t)) as Hin by (left; reflexivity).
      rewrite <- F in Hin. apply filter_In in Hin. destruct Hin as [Hin Hk].
      apply conflicting_spec in Hk. destruct Hk as (Hr & H1 & H2).
      exfalso. apply (Hfree k Hin Hr). unfold Spec.Overlap, Time.msPerMinute. lia. }
    reflexivity.
  - rewrite Hs. apply clock_time_same_day; assumption.
  - intros Hday. rewrite Hs. unfold_time.
    symmetry.
    apply (Z.div_unique _ _ _ (h * 3600000 + m * 60000 + d * 60000)); lia.
Qed.

(** Whatever the request, a 409 answer is given only for a submission
    with a confirmed booking of its room overlapping its interval. *)
Lemma conflict_only_if_overlap (tz : Z) (f : Faults) (today now : Z) (ev : Event)
    (db : Db) (resp : Response) :
  fst (SubmitBookingRequest.handler tz f today now ev db) = Return resp ->
  statusCode resp = 409 ->
  exists b sid rid st d s e k,
    body ev = Parsed b
    /\ SubmitBookingRequest.present b = Some (sid, rid, st, d)
    /\ SubmitBookingRequest.startDateTime tz today st = Some s
    /\ SubmitBookingRequest.endDateTime (Some s) d = Some e
    /\ now < s
    /\ In k (bookings db) /\ Booking.room_id k = rid
    /\ Booking.start_time k < e /\ Booking.end_time k > s.
Proof.
  unfold SubmitBookingRequest.handler. run_handler.
  all: intros H; injection H as <-; simpl; intros Hc; try discriminate Hc.
  match goal with
  | H : answer (bookings_error f) _ _ = inr _ |- _ =>
      apply answer_inr in H; destruct H as [_ ->]
  end.
  match goal with
  | H : (0 <? length _)%nat = true |- _ =>
      apply filter_nil_iff in H; destruct H as (k & Hin & Hk)
  end.
  apply conflicting_spec in Hk. destruct Hk as (Hr & H1 & H2).
  match goal with
  | H : Time.le (Some _) (Some now) = false |- _ =>
      simpl in H; apply Z.leb_gt in H
  end.
  subst. do 8 eexists. repeat split; eauto.
Qed.

(** Whatever the request, the StartTimeInPast answer is given only for a
    submission whose start instant is not after [now]. *)
Lemma past_only_if_not_future (tz : Z) (f : Faults) (today now : Z) (ev : Event)
    (db : Db) :
  fst (SubmitBookingRequest.handler tz f today now ev db)
  = Return (Spec.rejection Spec.StartTimeInPast) ->
  exists b sid rid st d s,
    body ev = Parsed b
    /\ SubmitBookingRequest.present b = Some (sid, rid, st, d)
    /\ SubmitBookingRequest.startDateTime tz today st = Some s
    /\ s <= now.
Proof.
  unfold SubmitBookingRequest.handler, Spec.rejection. simpl. run_handler.
  all: intros H; try discriminate H.
  match goal with
  | H : Time.le ?x (Some now) = true |- _ =>
      destruct x as [start|] eqn:Hstart; simpl in H;
      [apply Z.leb_le in H | discriminate H]
  end.
  do 6 eexists. repeat split; eauto.
Qed.

(** ** The order of the rules *)

Lemma present_Some (b : Body) (sid : string) (rid : Z) (st : string) (d : Z) :
  SubmitBookingRequest.present b = Some (sid, rid, st, d) ->
  student_id b = Some sid /\ room_id b = Some rid
  /\ start_time b = Some st /\ duration b = Some d
  /\ sid <> "" /\ rid <> 0 /\ st <> "" /\ d <> 0.
Proof.
  unfold SubmitBookingRequest.present.
  destruct (student_id b) as [sid'|]; [|discriminate].
  destruct (room_id b) as [rid'|]; [|discriminate].
  destruct (start_time b) as [st'|]; [|discriminate].
  destruct (duration b) as [d'|]; [|discriminate].
  destruct (String.eqb_spec sid' ""); [discriminate |].
  destruct (Z.eqb_spec rid' 0); [discriminate |].
  destruct (String.eqb_spec st' ""); [discriminate |].
  destruct (Z.eqb_spec d' 0); [discriminate |].
  simpl. intros H. injection H as <- <- <- <-. tauto.
Qed.










(** C8. Two stores that differ only in their pending requests give a
    submission the same answer: the same status and message (the new
    request's number apart, which the store's sequence gives).  The pending
    requests are queried and not looked at. *)
Theorem pending_requests_ignored (tz : Z) (f : Faults) (today now : Z)
    (ev : Event) (db1 db2 : Db) :
  same_but_pending db1 db2 ->
  exists r1 r2,
    fst (SubmitBookingRequest.handler tz f today now ev db1) = Return r1
    /\ fst (SubmitBookingRequest.handler tz f today now ev db2) = Return r2
    /\ statusCode r1 = statusCode r2
    /\ (r1 = r2
        \/ exists m, responseBody r1 = Submitted m (next_request_id db1)
                     /\ responseBody r2 = Submitted m (next_request_id db2)).
Proof.
  intros (Hr & Hb & _).
  unfold SubmitBookingRequest.handler.
  destruct db1 as [rooms1 bookings1 reqs1 next1], db2 as [rooms2 bookings2 reqs2 next2].
  simpl in Hr, Hb. subst rooms2 bookings2.
  unfold_M. unfold answer. simpl.
  repeat (step_match; simpl).
  all: do 2 eexists; repeat split; eauto.
Qed.

(** ** The theorems on the sample store *)

Lemma sample_rooms_unique : List.NoDup (List.map Room.id (rooms sample_db)).
Proof. repeat constructor; simpl; intuition discriminate. Defined.

Lemma sample_eligible (st : string) (d : Z) :
  st <> "" -> 30 <= d <= 120 ->
  Spec.Eligible no_faults sample_db
    {| student_id := Some "123456"; room_id := Some 1;
       start_time := Some st; duration := Some d |}
    "123456" 1 st d.
Proof.
  intros Hst Hd. constructor; try reflexivity.
  - split; [discriminate | exact Hst].
  - split; [left; reflexivity | repeat constructor].
  - exact Hd.
  - exact sample_rooms_unique.
  - exists (Room.mk 1 "Room A" "students" true).
    split; [right; left; reflexivity | split; reflexivity].
Defined.

Lemma conflict_iff_overlap_witness :
  (fst (submit (sample_call (post "123456" 1 "10:30" 60)) sample_db)
   = Return (Spec.rejection Spec.RoomAlreadyBooked)
   <-> exists k, In k (bookings sample_db) /\ Booking.room_id k = 1
                 /\ Booking.start_time k < at_clock 11 30
                 /\ Booking.end_time k > at_clock 10 30)
  /\ ((forall k, In k (bookings sample_db) -> Booking.room_id k = 1 ->
         Booking.end_time k <= at_clock 10 30
         \/ at_clock 11 30 <= Booking.start_time k) ->
      forall resp,
        fst (submit (sample_call (post "123456" 1 "10:30" 60)) sample_db)
        = Return resp ->
        statusCode resp <> 409).
Proof.
  apply (conflict_iff_overlap 0 no_faults (at_clock 9 0) (at_clock 9 0)
           (post "123456" 1 "10:30" 60) sample_db
           {| student_id := Some "123456"; room_id := Some 1;
              start_time := Some "10:30"; duration := Some 60 |}
           "123456" 1 "10:30" 60 (at_clock 10 30) (at_clock 11 30)).
  - reflexivity.
  - reflexivity.
  - apply sample_eligible; [discriminate | lia].
  - vm_compute. reflexivity.
  - vm_compute. reflexivity.
  - vm_compute. reflexivity.
  - reflexivity.
Defined.

Lemma past_start_rejected_witness :
  (fst (submit (sample_call (post "123456" 1 "09:00" 60)) sample_db)
   = Return (Spec.rejection Spec.StartTimeInPast)
   <-> exists s,
        SubmitBookingRequest.startDateTime 0 (at_clock 9 0) "09:00" = Some s
        /\ s <= at_clock 9 0)
  /\ ("09:00" = Str.clock (Time.getHours 0 (at_clock 9 0))
                  (Time.getMinutes 0 (at_clock 9 0)) ->
      at_clock 9 0 <= at_clock 9 0 ->
      Z.abs (at_clock 9 0) + Time.msPerMinute <= Time.maxTime ->
      fst (submit (sample_call (post "123456" 1 "09:00" 60)) sample_db)
      = Return (Spec.rejection Spec.StartTimeInPast)).
Proof.
  apply (past_start_rejected 0 no_faults (at_clock 9 0) (at_clock 9 0)
           (post "123456" 1 "09:00" 60) sample_db
           {| student_id := Some "123456"; room_id := Some 1;
              start_time := Some "09:00"; duration := Some 60 |}
           "123456" 1 "09:00" 60).
  - reflexivity.
  - reflexivity.
  - apply sample_eligible; [discriminate | lia].
Defined.

Lemma accepted_interval_witness :
  submit (sample_call (post "123456" 1 "11:00" 60)) sample_db
  = (Return {| statusCode := 200;
               responseBody :=
                 Submitted "Booking request submitted successfully" 1 |},
     {| rooms := rooms sample_db;
        bookings := bookings sample_db;
        booking_requests :=
          [Request.mk 1 "123456" 1 (at_clock 11 0)
             (at_clock 11 0 + 60 * Time.msPerMinute) pending];
        next_request_id := 1 + 1 |})
  /\ Time.Day (Time.LocalTime 0 (at_clock 11 0))
     = Time.Day (Time.LocalTime 0 (at_clock 9 0))
  /\ (11 * 60 + 0 + 60 < 1440 ->
      Time.Day (Time.LocalTime 0 (at_clock 11 0 + 60 * Time.msPerMinute))
      = Time.Day (Time.LocalTime 0 (at_clock 9 0))).
Proof.
  apply (accepted_interval 0 no_faults (at_clock 9 0) (at_clock 9 0)
           (post "123456" 1 "11:00" 60) sample_db
           {| student_id := Some "123456"; room_id := Some 1;
              start_time := Some "11:00"; duration := Some 60 |}
           "123456" 1 11 0 60 (at_clock 11 0)).
  - reflexivity.
  - reflexivity.
  - apply (sample_eligible (Str.clock 11 0) 60); [discriminate | lia].
  - lia.
  - lia.
  - vm_compute. discriminate.
  - vm_compute. reflexivity.
  - vm_compute. reflexivity.
  - intros k [<- | []] _ [H1 H2]. vm_compute in H2. discriminate H2.
  - reflexivity.
  - reflexivity.
  - reflexivity.
Defined.


Lemma pending_requests_ignored_witness :
  same_but_pending sample_db sample_db_pending
  /\ exists r1 r2,
    fst (submit (sample_call (post "123456" 1 "11:00" 60)) sample_db) = Return r1
    /\ fst (submit (sample_call (post "123456" 1 "11:00" 60)) sample_db_pending)
       = Return r2
    /\ statusCode r1 = statusCode r2
    /\ (r1 = r2
        \/ exists m, responseBody r1 = Submitted m (next_request_id sample_db)
                     /\ responseBody r2 = Submitted m (next_request_id sample_db_pending)).
Proof.
  assert (same_but_pending sample_db sample_db_pending) as H
    by (repeat split; reflexivity).
  split; [exact H |].
  apply (pending_requests_ignored 0 no_faults (at_clock 9 0) (at_clock 9 0)
           (post "123456" 1 "11:00" 60) sample_db sample_db_pending H).
Defined.

(** C4 as stated fails: a valid submission at 23:00 for 23:30 and 60
    minutes, clear of every booking, is accepted, and its end instant is on
    the next calendar date. *)
Lemma end_after_midnight :
  Spec.Eligible no_faults sample_db
    {| student_id := Some "123456"; room_id := Some 1;
       start_time := Some "23:30"; duration := Some 60 |}
    "123456" 1 "23:30" 60
  /\ SubmitBookingRequest.startDateTime 0 (at_clock 23 0) "23:30"
     = Some (at_clock 23 30)
  /\ at_clock 23 0 < at_clock 23 30
  /\ (forall k, In k (bookings sample_db) -> Booking.room_id k = 1 ->
        ~ Spec.Overlap (Booking.start_time k) (Booking.end_time k)
            (at_clock 23 30) (at_clock 24 30))
  /\ SubmitBookingRequest.handler 0 no_faults (at_clock 23 0) (at_clock 23 0)
       (post "123456" 1 "23:30" 60) sample_db
     = (Return {| statusCode := 200;
                  responseBody :=
                    Submitted "Booking request submitted successfully" 1 |},
        {| rooms := rooms sample_db;
           bookings := bookings sample_db;
           booking_requests :=
             [Request.mk 1 "123456" 1 (at_clock 23 30) (at_clock 24 30) pending];
           next_request_id := 2 |})
  /\ Time.Day (Time.LocalTime 0 (at_clock 24 30))
     <> Time.Day (Time.LocalTime 0 (at_clock 23 0)).
Proof.
  split; [apply sample_eligible; [discriminate | lia] |].
  split; [vm_compute; reflexivity |].
  split; [vm_compute; reflexivity |].
  split.
  { intros k [<- | []] _ [H1 H2]. vm_compute in H2. discriminate H2. }
  split; [vm_compute; reflexivity |].
  vm_compute. discriminate.
Qed.


(** ** The room list *)

Lemma sorted_map_key {A} (key : A -> Z) (l : list A) :
  StronglySorted (key_le key) l -> StronglySorted Z.le (List.map key l).
Proof.
  induction 1 as [|x l Hs IH Hx]; simpl; constructor.
  - exact IH.
  - rewrite List.Forall_forall in *. intros z Hz.
    apply in_map_iff in Hz. destruct Hz as (y & <- & Hy). apply Hx. exact Hy.
Qed.

Lemma occupied_spec (now rid : Z) (bs : list Booking.t) :
  rid ∈ (list_to_set
           (List.map Booking.room_id
              (List.filter (fun b => (now <=? Booking.end_time b)
                                     && (Booking.start_time b <=? now)) bs))
         : gset Z)
  <-> exists k, In k bs /\ Booking.room_id k = rid
                /\ Booking.start_time k <= now <= Booking.end_time k.
Proof.
  rewrite elem_of_list_to_set, list_elem_of_In, in_map_iff.
  split.
  - intros (k & Hr & Hk). apply filter_In in Hk. destruct Hk as [Hin Hk].
    apply andb_prop in Hk. destruct Hk as [H1 H2].
    exists k. split; [exact Hin | split; [exact Hr | lia]].
  - intros (k & Hin & Hr & Hk). exists k. split; [exact Hr |].
    apply filter_In. split; [exact Hin |].
    apply andb_true_intro. split; lia.
Qed.

(** C7. Answering a GET with the store's reads answered, getRooms lists
    exactly the active rooms, by ascending id, each with its id and name,
    and marks a room unavailable exactly when a confirmed booking of the
    room has start_time <= now <= end_time; a room none of whose bookings
    contains [now] (each ended before [now] or starts after it) is marked
    available.  The store is left as it was. *)
Theorem rooms_listed_with_occupancy (f : Faults) (now : Z) (ev : Event) (db : Db) :
  httpMethod ev = "GET" ->
  rooms_error f = None ->
  bookings_error f = None ->
  exists l,
    GetRooms.handler f now ev db
    = (Return {| statusCode := 200; responseBody := RoomList l |}, db)
    /\ Permutation
         (List.map (fun s => (RoomStatus.id s, RoomStatus.name s)) l)
         (List.map (fun r => (Room.id r, Room.name r))
            (List.filter Room.is_active (rooms db)))
    /\ StronglySorted Z.le (List.map RoomStatus.id l)
    /\ (forall s, In s l ->
          (RoomStatus.is_available s = false <->
           exists k, In k (bookings db) /\ Booking.room_id k = RoomStatus.id s
                     /\ Booking.start_time k <= now <= Booking.end_time k))
    /\ (forall s, In s l ->
          (forall k, In k (bookings db) -> Booking.room_id k = RoomStatus.id s ->
             Booking.end_time k < now \/ now < Booking.start_time k) ->
          RoomStatus.is_available s = true).
Proof.
  intros Hm Hr Hb.
  unfold GetRooms.handler. rewrite Hm. simpl.
  unfold_M. unfold answer. rewrite Hr, Hb. simpl.
  eexists. split; [reflexivity |].
  set (active := order_by Room.id (List.filter Room.is_active (rooms db))).
  assert (forall s,
            In s (List.map
                    (fun room =>
                       RoomStatus.mk (Room.id room) (Room.name room)
                         (negb (bool_decide
                            (Room.id room ∈
                               (list_to_set
                                  (List.map Booking.room_id
                                     (List.filter
                                        (fun b => (now <=? Booking.end_time b)
                                                  && (Booking.start_time b <=? now))
                                        (bookings db))) : gset Z)))))
                    active) ->
            (RoomStatus.is_available s = false <->
             exists k, In k (bookings db) /\ Booking.room_id k = RoomStatus.id s
                       /\ Booking.start_time k <= now <= Booking.end_time k))
    as Havail.
  { intros s Hs. apply in_map_iff in Hs. destruct Hs as (room & <- & _). simpl.
    rewrite negb_false_iff, bool_decide_eq_true. apply occupied_spec. }
  split; [| split; [| split]].
  - rewrite map_map. simpl.
    apply Permutation_map. apply order_by_perm.
  - rewrite map_map. simpl.
    apply sorted_map_key. apply order_by_sorted.
  - exact Havail.
  - intros s Hs Hfree.
    destruct (RoomStatus.is_available s) eqn:E; [reflexivity |].
    apply (Havail s Hs) in E. destruct E as (k & Hin & Hk & Hnow).
    destruct (Hfree k Hin Hk); lia.
Qed.

Lemma rooms_listed_with_occupancy_witness :
  exists l,
    GetRooms.handler no_faults (at_clock 10 30) get sample_db
    = (Return {| statusCode := 200; responseBody := RoomList l |}, sample_db)
    /\ Permutation
         (List.map (fun s => (RoomStatus.id s, RoomStatus.name s)) l)
         (List.map (fun r => (Room.id r, Room.name r))
            (List.filter Room.is_active (rooms sample_db)))
    /\ StronglySorted Z.le (List.map RoomStatus.id l)
    /\ (forall s, In s l ->
          (RoomStatus.is_available s = false <->
           exists k, In k (bookings sample_db)
                     /\ Booking.room_id k = RoomStatus.id s
                     /\ Booking.start_time k <= at_clock 10 30 <= Booking.end_time k))
    /\ (forall s, In s l ->
          (forall k, In k (bookings sample_db) ->
             Booking.room_id k = RoomStatus.id s ->
             Booking.end_time k < at_clock 10 30
             \/ at_clock 10 30 < Booking.start_time k) ->
          RoomStatus.is_available s = true).
Proof.
  apply (rooms_listed_with_occupancy no_faults (at_clock 10 30) get sample_db);
    reflexivity.
Defined.

(** ** Reads leave the store alone *)

Lemma getRooms_reads_only (f : Faults) (now : Z) (ev : Event) (db : Db) :
  snd (GetRooms.handler f now ev db) = db.
Proof. unfold GetRooms.handler. run_handler; reflexivity. Qed.

Lemma getRoomSchedules_reads_only (tz : Z) (f : Faults) (now : Z) (ev : Event)
    (db : Db) :
  snd (GetRoomSchedules.handler tz f now ev db) = db.
Proof. unfold GetRoomSchedules.handler. run_handler; reflexivity. Qed.

Lemma replay_read (h : M Response) :
  (forall db, snd (h db) = db) ->
  forall n db, replay n h db = (List.repeat (fst (h db)) n, db).
Proof.
  intros Hh n. induction n as [|n IH]; intros db; simpl.
  - reflexivity.
  - pose proof (Hh db) as E. destruct (h db) as [o db'] eqn:Hd.
    simpl in E. subst db'. rewrite IH, Hd. reflexivity.
Qed.

(** C9. getRooms and getRoomSchedules leave the store as it was, and any
    number of calls in a row, with no write between them (at the same
    instant, the store answering the same way), give the same answer as
    the first. *)
Theorem reads_are_idempotent (tz : Z) (f : Faults) (now : Z) (ev : Event)
    (db : Db) (n : nat) :
  snd (GetRooms.handler f now ev db) = db
  /\ snd (GetRoomSchedules.handler tz f now ev db) = db
  /\ replay n (GetRooms.handler f now ev) db
     = (List.repeat (fst (GetRooms.handler f now ev db)) n, db)
  /\ replay n (GetRoomSchedules.handler tz f now ev) db
     = (List.repeat (fst (GetRoomSchedules.handler tz f now ev db)) n, db).
Proof.
  split; [apply getRooms_reads_only |].
  split; [apply getRoomSchedules_reads_only |].
  split; apply replay_read; intros db'.
  - apply getRooms_reads_only.
  - apply getRoomSchedules_reads_only.
Qed.

(** ** The schedule *)

Lemma group_lookup (l : list Booking.t) : forall (acc : gmap Z (list Slot.t)) (rid : Z),
  default [] (fold_left GetRoomSchedules.group l acc !! rid)
  = (default [] (acc !! rid)
     ++ List.map slot_of (List.filter (fun k => Booking.room_id k =? rid) l))%list.
Proof.
  induction l as [|k l IH]; intros acc rid; simpl.
  - rewrite app_nil_r. reflexivity.
  - rewrite IH. unfold GetRoomSchedules.group.
    destruct (Z.eqb_spec (Booking.room_id k) rid) as [E | E].
    + rewrite E, lookup_insert_eq. simpl. rewrite <- app_assoc. reflexivity.
    + rewrite lookup_insert_ne by exact E. reflexivity.
Qed.

Ltac enter_schedule Hm :=
  unfold GetRoomSchedules.handler; rewrite Hm;
  change (String.eqb "GET" "OPTIONS") with false;
  change (negb (String.eqb "GET" "GET")) with false;
  unfold_M; unfold answer, order.

(** The schedule answered when the store's reads are answered. *)
Lemma schedule_run (tz : Z) (f : Faults) (now : Z) (ev : Event) (db : Db) (lo hi : Z) :
  httpMethod ev = "GET" ->
  rooms_error f = None ->
  bookings_error f = None ->
  Time.onDayOf tz now (Some 8) (Some 0) 0 = Some lo ->
  Time.onDayOf tz now (Some 19) (Some 0) 0 = Some hi ->
  GetRoomSchedules.handler tz f now ev db
  = (Return {| statusCode := 200;
               responseBody :=
                 Schedule (Time.Day now)
                   (List.map (schedule_of lo hi (bookings db))
                      (order_by Room.id (List.filter Room.is_active (rooms db)))) |},
     db).
Proof.
  intros Hm Hr Hb Hlo Hhi.
  enter_schedule Hm. rewrite Hr, Hb, Hlo, Hhi.
  cbv beta iota. do 4 f_equal.
  apply map_ext. intros room. unfold schedule_of. f_equal.
  rewrite group_lookup. rewrite lookup_empty. reflexivity.
Qed.

Lemma redact_schedule_of (lo hi : Z) (bs : list Booking.t) (room : Room.t) :
  redact_room (schedule_of lo hi bs room)
  = redact_room (schedule_of lo hi (List.map forget_student bs) room).
Proof.
  unfold redact_room, schedule_of. simpl. f_equal.
  rewrite (filter_map_comm forget_student (in_window lo hi) (in_window lo hi))
    by reflexivity.
  rewrite (order_by_map forget_student Booking.start_time Booking.start_time)
    by reflexivity.
  rewrite (filter_map_comm forget_student
             (fun k => Booking.room_id k =? Room.id room)
             (fun k => Booking.room_id k =? Room.id room)) by reflexivity.
  rewrite !map_map. reflexivity.
Qed.

(** What an answered schedule is made of. *)
Lemma schedule_answered (tz : Z) (f : Faults) (now : Z) (ev : Event) (db : Db)
    (c d : Z) (l : list RoomSchedule.t) :
  fst (GetRoomSchedules.handler tz f now ev db)
  = Return {| statusCode := c; responseBody := Schedule d l |} ->
  exists lo hi,
    Time.onDayOf tz now (Some 8) (Some 0) 0 = Some lo
    /\ Time.onDayOf tz now (Some 19) (Some 0) 0 = Some hi
    /\ d = Time.Day now
    /\ l = List.map (schedule_of lo hi (bookings db))
             (order_by Room.id (List.filter Room.is_active (rooms db))).
Proof.
  intros Hresp.
  destruct (String.eqb_spec (httpMethod ev) "GET") as [Hm | Hm].
  - destruct (rooms_error f) as [e|] eqn:Er.
    { revert Hresp. enter_schedule Hm. rewrite Er. discriminate. }
    destruct (Time.onDayOf tz now (Some 8) (Some 0) 0) as [lo|] eqn:Elo.
    2: { revert Hresp. enter_schedule Hm. rewrite Er, Elo. discriminate. }
    destruct (Time.onDayOf tz now (Some 19) (Some 0) 0) as [hi|] eqn:Ehi.
    2: { revert Hresp. enter_schedule Hm. rewrite Er, Elo, Ehi. discriminate. }
    destruct (bookings_error f) as [e|] eqn:Eb.
    { revert Hresp. enter_schedule Hm. rewrite Er, Elo, Ehi, Eb. discriminate. }
    rewrite (schedule_run tz f now ev db lo hi Hm Er Eb Elo Ehi) in Hresp.
    simpl in Hresp. injection Hresp as _ <- <-.
    exists lo, hi. repeat split; reflexivity.
  - revert Hresp. unfold GetRoomSchedules.handler.
    destruct (String.eqb_spec (httpMethod ev) "OPTIONS"); [discriminate |].
    destruct (String.eqb_spec (httpMethod ev) "GET"); [contradiction | discriminate].
Qed.

(** The entries of a room's schedule are the bookings of the room inside
    the window. *)
Lemma schedule_of_In (lo hi : Z) (bs : list Booking.t) (room : Room.t) (x : Slot.t) :
  In x (RoomSchedule.bookings (schedule_of lo hi bs room))
  <-> exists k, In k bs /\ Booking.room_id k = Room.id room
                /\ lo <= Booking.end_time k /\ Booking.start_time k <= hi
                /\ x = Slot.mk (Booking.student_id k) (Booking.start_time k)
                         (Booking.end_time k).
Proof.
  unfold schedule_of. simpl. rewrite in_map_iff. split.
  - intros (k & <- & Hk). apply filter_In in Hk. destruct Hk as [Hk Hid].
    apply order_by_In in Hk. apply filter_In in Hk. destruct Hk as [Hk Hw].
    unfold in_window in Hw. apply andb_prop in Hw. destruct Hw as [H1 H2].
    exists k. apply Z.eqb_eq in Hid. apply Z.leb_le in H1, H2.
    repeat split; assumption.
  - intros (k & Hk & Hid & H1 & H2 & ->). exists k. split; [reflexivity |].
    apply filter_In. split; [| apply Z.eqb_eq; exact Hid].
    apply order_by_In. apply filter_In. split; [exact Hk |].
    unfold in_window. apply andb_true_intro.
    split; apply Z.leb_le; assumption.
Qed.

(** C3 (as amended). The schedule carries, for each booking it lists, the
    booking's [student_id] with its start and end times: every entry of a
    room is the student, start and end of a stored booking of that room,
    and every booking of a listed room inside the window has its entry.
    Two stores that differ only in the [student_id] of their bookings get
    answers that differ only in those [student_id] fields: after blanking
    them the answers are the same. *)
Theorem schedule_differs_only_in_students (tz : Z) (f : Faults) (now : Z)
    (ev : Event) (db1 db2 : Db) :
  same_but_students db1 db2 ->
  (forall c d l,
      fst (GetRoomSchedules.handler tz f now ev db1)
      = Return {| statusCode := c; responseBody := Schedule d l |} ->
      forall s, In s l ->
        (forall x, In x (RoomSchedule.bookings s) ->
           exists k, In k (bookings db1)
                     /\ Booking.room_id k = RoomSchedule.id s
                     /\ x = Slot.mk (Booking.student_id k) (Booking.start_time k)
                              (Booking.end_time k))
        /\ (forall k lo hi,
              In k (bookings db1) ->
              Booking.room_id k = RoomSchedule.id s ->
              Time.onDayOf tz now (Some 8) (Some 0) 0 = Some lo ->
              Time.onDayOf tz now (Some 19) (Some 0) 0 = Some hi ->
              lo <= Booking.end_time k -> Booking.start_time k <= hi ->
              In (Slot.mk (Booking.student_id k) (Booking.start_time k)
                    (Booking.end_time k))
                 (RoomSchedule.bookings s)))
  /\ redact (fst (GetRoomSchedules.handler tz f now ev db1))
     = redact (fst (GetRoomSchedules.handler tz f now ev db2)).
Proof.
  intros (Hr & Hb & _). split.
  - intros c d l Hresp s Hs.
    apply schedule_answered in Hresp.
    destruct Hresp as (lo & hi & Elo & Ehi & _ & ->).
    apply in_map_iff in Hs. destruct Hs as (room & <- & _). split.
    + intros x Hx. apply schedule_of_In in Hx.
      destruct Hx as (k & Hk & Hid & _ & _ & ->). exists k.
      repeat split; assumption.
    + intros k lo' hi' Hk Hid Elo' Ehi' H1 H2.
      rewrite Elo in Elo'. rewrite Ehi in Ehi'.
      injection Elo' as <-. injection Ehi' as <-.
      apply schedule_of_In. exists k. repeat split; assumption.
  - destruct (String.eqb_spec (httpMethod ev) "GET") as [Hm | Hm].
    + destruct (rooms_error f) as [e|] eqn:Er.
      { enter_schedule Hm. rewrite Er. reflexivity. }
      destruct (Time.onDayOf tz now (Some 8) (Some 0) 0) as [lo|] eqn:Elo.
      2: { enter_schedule Hm. rewrite Er, Elo. reflexivity. }
      destruct (Time.onDayOf tz now (Some 19) (Some 0) 0) as [hi|] eqn:Ehi.
      2: { enter_schedule Hm. rewrite Er, Elo, Ehi. reflexivity. }
      destruct (bookings_error f) as [e|] eqn:Eb.
      { enter_schedule Hm. rewrite Er, Elo, Ehi, Eb. reflexivity. }
      rewrite (schedule_run tz f now ev db1 lo hi Hm Er Eb Elo Ehi).
      rewrite (schedule_run tz f now ev db2 lo hi Hm Er Eb Elo Ehi).
      simpl. rewrite Hr, !map_map. do 3 f_equal.
      apply map_ext. intros room.
      rewrite (redact_schedule_of lo hi (bookings db1)).
      rewrite (redact_schedule_of lo hi (bookings db2)).
      rewrite Hb. reflexivity.
    + unfold GetRoomSchedules.handler.
      destruct (String.eqb_spec (httpMethod ev) "OPTIONS"); [reflexivity |].
      destruct (String.eqb_spec (httpMethod ev) "GET"); [contradiction | reflexivity].
Qed.

Lemma schedule_differs_only_in_students_witness :
  same_but_students sample_db sample_db_renamed
  /\ (forall c d l,
        fst (GetRoomSchedules.handler 0 no_faults (at_clock 9 0) get sample_db)
        = Return {| statusCode := c; responseBody := Schedule d l |} ->
        forall s, In s l ->
          (forall x, In x (RoomSchedule.bookings s) ->
             exists k, In k (bookings sample_db)
                       /\ Booking.room_id k = RoomSchedule.id s
                       /\ x = Slot.mk (Booking.student_id k) (Booking.start_time k)
                                (Booking.end_time k))
          /\ (forall k lo hi,
                In k (bookings sample_db) ->
                Booking.room_id k = RoomSchedule.id s ->
                Time.onDayOf 0 (at_clock 9 0) (Some 8) (Some 0) 0 = Some lo ->
                Time.onDayOf 0 (at_clock 9 0) (Some 19) (Some 0) 0 = Some hi ->
                lo <= Booking.end_time k -> Booking.start_time k <= hi ->
                In (Slot.mk (Booking.student_id k) (Booking.start_time k)
                      (Booking.end_time k))
                   (RoomSchedule.bookings s)))
  /\ redact (fst (GetRoomSchedules.handler 0 no_faults (at_clock 9 0) get sample_db))
     = redact (fst (GetRoomSchedules.handler 0 no_faults (at_clock 9 0) get
                      sample_db_renamed)).
Proof.
  assert (same_but_students sample_db sample_db_renamed) as H
    by (repeat split; reflexivity).
  split; [exact H |].
  apply (schedule_differs_only_in_students 0 no_faults (at_clock 9 0) get
           sample_db sample_db_renamed H).
Defined.

(** C3 as stated fails: the schedule shows the student of a booking, and
    the answer changes with the stored [student_id]. *)
Lemma schedule_shows_student :
  fst (GetRoomSchedules.handler 0 no_faults (at_clock 9 0) get sample_db)
  = Return {| statusCode := 200;
              responseBody :=
                Schedule (Time.Day (at_clock 9 0))
                  [ RoomSchedule.mk 1 "Room A"
                      [Slot.mk "654321" (at_clock 10 0) (at_clock 11 0)];
                    RoomSchedule.mk 2 "Room B" [] ] |}
  /\ ~ (forall (tz : Z) (f : Faults) (now : Z) (ev : Event) (db1 db2 : Db),
          same_but_students db1 db2 ->
          fst (GetRoomSchedules.handler tz f now ev db1)
          = fst (GetRoomSchedules.handler tz f now ev db2)).
Proof.
  split; [vm_compute; reflexivity |].
  intros H.
  specialize (H 0 no_faults (at_clock 9 0) get sample_db sample_db_renamed).
  assert (same_but_students sample_db sample_db_renamed) as Hs
    by (repeat split; reflexivity).
  apply H in Hs. vm_compute in Hs. discriminate Hs.
Qed.

(** ** Checks on small inputs *)

Example parseInt_leading_zero : Str.parseInt "09" = Some 9.
Proof. reflexivity. Qed.

Example parseInt_prefix : Str.parseInt " -12abc" = Some (-12).
Proof. reflexivity. Qed.

Example parseInt_undefined : Str.parseInt "undefined" = None.
Proof. reflexivity. Qed.

Example parseInt_hex : Str.parseInt "0x1f" = Some 31.
Proof. reflexivity. Qed.

Example split_clock : Str.split ":" "10:30" = ["10"; "30"].
Proof. reflexivity. Qed.

Example split_no_colon : Str.split ":" "1030" = ["1030"].
Proof. reflexivity. Qed.

Example clock_pads : Str.clock 9 5 = "09:05".
Proof. reflexivity. Qed.

Example student_id_five_digits :
  fst (submit (sample_call (post "12345" 1 "11:00" 60)) sample_db)
  = Return (Spec.rejection Spec.InvalidStudentId).
Proof. vm_compute. reflexivity. Qed.

Example student_id_seven_digits :
  fst (submit (sample_call (post "1234567" 1 "11:00" 60)) sample_db)
  = Return {| statusCode := 200;
              responseBody := Submitted "Booking request submitted successfully" 1 |}.
Proof. vm_compute. reflexivity. Qed.

Example student_id_eight_digits :
  fst (submit (sample_call (post "12345678" 1 "11:00" 60)) sample_db)
  = Return (Spec.rejection Spec.InvalidStudentId).
Proof. vm_compute. reflexivity. Qed.

Example duration_29 :
  fst (submit (sample_call (post "123456" 1 "11:00" 29)) sample_db)
  = Return (Spec.rejection Spec.InvalidDuration).
Proof. vm_compute. reflexivity. Qed.

Example duration_30 :
  fst (submit (sample_call (post "123456" 1 "11:00" 30)) sample_db)
  = Return {| statusCode := 200;
              responseBody := Submitted "Booking request submitted successfully" 1 |}.
Proof. vm_compute. reflexivity. Qed.

Example duration_120 :
  fst (submit (sample_call (post "123456" 1 "11:00" 120)) sample_db)
  = Return {| statusCode := 200;
              responseBody := Submitted "Booking request submitted successfully" 1 |}.
Proof. vm_compute. reflexivity. Qed.

Example duration_121 :
  fst (submit (sample_call (post "123456" 1 "11:00" 121)) sample_db)
  = Return (Spec.rejection Spec.InvalidDuration).
Proof. vm_compute. reflexivity. Qed.

Example inactive_room :
  fst (submit (sample_call (post "123456" 3 "11:00" 60)) sample_db)
  = Return (Spec.rejection Spec.InactiveRoom).
Proof. vm_compute. reflexivity. Qed.

Example unknown_room :
  fst (submit (sample_call (post "123456" 9 "11:00" 60)) sample_db)
  = Return (Spec.rejection Spec.InvalidRoom).
Proof. vm_compute. reflexivity. Qed.

Example touching_start :
  fst (submit (sample_call (post "123456" 1 "11:00" 60)) sample_db)
  = Return {| statusCode := 200;
              responseBody := Submitted "Booking request submitted successfully" 1 |}.
Proof. vm_compute. reflexivity. Qed.

Example overlapping_start :
  fst (submit (sample_call (post "123456" 1 "10:59" 60)) sample_db)
  = Return (Spec.rejection Spec.RoomAlreadyBooked).
Proof. vm_compute. reflexivity. Qed.

Example malformed_start_time :
  fst (submit (sample_call (post "123456" 1 "soon" 60)) sample_db)
  = Return {| statusCode := 500;
              responseBody :=
                Failure "Failed to submit booking request" "Invalid time value" |}.
Proof. vm_compute. reflexivity. Qed.

Example room_occupied_at_end :
  fst (GetRooms.handler no_faults (at_clock 11 0) get sample_db)
  = Return {| statusCode := 200;
              responseBody :=
                RoomList [ RoomStatus.mk 1 "Room A" false;
                           RoomStatus.mk 2 "Room B" true ] |}.
Proof. vm_compute. reflexivity. Qed.

Example room_free_after_end :
  fst (GetRooms.handler no_faults (at_clock 11 0 + 1) get sample_db)
  = Return {| statusCode := 200;
              responseBody :=
                RoomList [ RoomStatus.mk 1 "Room A" true;
                           RoomStatus.mk 2 "Room B" true ] |}.
Proof. vm_compute. reflexivity. Qed.

(** * Further properties of the handlers *)

(** ** Rows added by submissions *)

Lemma single_inr {A} (fault : option string) (keep : A -> bool)
    (rows : list A) (x : A) :
  single (answer fault keep rows) = inr x ->
  fault = None /\ List.filter keep rows = [x] /\ In x rows /\ keep x = true.
Proof.
  unfold single, answer. destruct fault; [discriminate |].
  destruct (List.filter keep rows) as [|y [|z t]] eqn:F; try discriminate.
  intros H. injection H as <-.
  assert (In y (List.filter keep rows)) as Hin by (rewrite F; left; reflexivity).
  apply filter_In in Hin. tauto.
Qed.

Lemma endDateTime_Some (s d e : Z) :
  SubmitBookingRequest.endDateTime (Some s) d = Some e ->
  e = s + d * Time.msPerMinute /\ Z.abs e <= Time.maxTime.
Proof.
  unfold SubmitBookingRequest.endDateTime, Time.plus, Time.TimeClip, Time.msPerMinute.
  destruct (Z.leb_spec (Z.abs (s + d * 60000)) Time.maxTime) as [Hle | _];
    [| discriminate].
  intros H. injection H as <-. split; [reflexivity | exact Hle].
Qed.

Lemma submit_step_row (c : Call) (db : Db) :
  booking_requests (snd (submit c db)) = booking_requests db
  \/ exists row,
      booking_requests (snd (submit c db)) = (booking_requests db ++ [row])%list
      /\ stored_by db row c.
Proof.
  unfold submit, SubmitBookingRequest.handler. run_handler.
  all: try (left; reflexivity).
  right. eexists. split; [reflexivity |].
  repeat match goal with
  | H : negb _ = false |- _ => apply negb_false_iff in H
  end.
  match goal with
  | H : (httpMethod _ =? "POST")%string = true |- _ => apply String.eqb_eq in H
  end.
  match goal with
  | H : SubmitBookingRequest.present _ = Some _ |- _ =>
      apply present_Some in H; destruct H as (Es & Er & Et & Ed & _)
  end.
  match goal with
  | H : single _ = inr _ |- _ => apply single_inr in H; destruct H as (_ & _ & Hin & Hid)
  end.
  match goal with
  | H : SubmitBookingRequest.endDateTime _ _ = Some _ |- _ =>
      apply endDateTime_Some in H; destruct H as [-> _]
  end.
  match goal with
  | H : Time.le (Some _) (Some _) = false |- _ => simpl in H; apply Z.leb_gt in H
  end.
  match goal with
  | H : _ || _ = false |- _ => apply orb_false_iff in H; destruct H as [D1 D2]
  end.
  apply Z.ltb_ge in D1. rewrite Z.gtb_ltb in D2. apply Z.ltb_ge in D2.
  apply Z.eqb_eq in Hid.
  unfold stored_by. do 6 eexists. simpl.
  repeat (split; [first [eassumption | reflexivity | lia] |]).
  split; [eexists; repeat split; eassumption |].
  repeat (split; [first [eassumption | reflexivity | lia] |]).
  reflexivity.
Qed.

(** X1. Whatever the submissions, every row they add to [booking_requests]
    was stored by one of them: a POST whose student id passed the pattern
    test, whose duration is within 30..120, whose room is an active room
    of the store and whose start is after its [now]; the row carries the
    student id and room id sent, that start, the end [duration] minutes
    later, and the status pending. *)
Theorem added_requests_come_from_submissions (calls : list Call) (db : Db) :
  exists new,
    booking_requests (run calls db) = (booking_requests db ++ new)%list
    /\ List.Forall (fun r => exists c, In c calls /\ stored_by db r c) new.
Proof.
  revert db. induction calls as [|c calls IH]; intros db; simpl.
  - exists []. split; [symmetry; apply app_nil_r | constructor].
  - destruct (submit_step (call_tz c) (call_faults c) (call_today c)
                (call_now c) (call_event c) db) as (Hr & _ & _).
    fold (submit c) in Hr.
    destruct (IH (snd (submit c db))) as (new & IHq & IHnew).
    assert (List.Forall (fun r => exists c0, In c0 (c :: calls) /\ stored_by db r c0)
              new) as Hnew.
    { eapply List.Forall_impl; [| exact IHnew].
      intros r (c0 & Hin & Hst). exists c0. split; [right; exact Hin |].
      unfold stored_by in *. rewrite <- Hr. exact Hst. }
    destruct (submit_step_row c db) as [Hq | (row & Hq & Hw)].
    + exists new. rewrite IHq, Hq. split; [reflexivity | exact Hnew].
    + exists (row :: new). rewrite IHq, Hq, <- app_assoc. simpl.
      split; [reflexivity |]. constructor; [| exact Hnew].
      exists c. split; [left; reflexivity | exact Hw].
Qed.

(** ** Start times that do not parse, and hours past 23 *)

(** X2. A submission that passes the rules on its fields and its room,
    and whose start_time gives no number for the hours or for the minutes
    (no colon, no leading digits), is not rejected as a bad request: the
    Invalid Date passes the past check and the answer is 500 with the
    error "Invalid time value"; nothing is stored. *)
Theorem unparsed_start_is_internal_error (tz : Z) (f : Faults) (today now : Z)
    (ev : Event) (db : Db) (b : Body) (sid : string) (rid : Z) (st : string) (d : Z) :
  httpMethod ev = "POST" ->
  body ev = Parsed b ->
  Spec.Eligible f db b sid rid st d ->
  SubmitBookingRequest.parsePart (Str.split ":" st) 0 = None
  \/ SubmitBookingRequest.parsePart (Str.split ":" st) 1 = None ->
  SubmitBookingRequest.handler tz f today now ev db
  = (Return {| statusCode := 500;
               responseBody :=
                 Failure "Failed to submit booking request" "Invalid time value" |},
     db).
Proof.
  intros Hm Hb Hel Hnan.
  assert (SubmitBookingRequest.startDateTime tz today st = None) as Hs.
  { unfold SubmitBookingRequest.startDateTime, Time.onDayOf.
    destruct Hnan as [-> | ->]; [reflexivity |].
    destruct (SubmitBookingRequest.parsePart _ 0); reflexivity. }
  unfold SubmitBookingRequest.handler. rewrite Hm, Hb. simpl.
  unfold_M. enter Hel. rewrite Hs. reflexivity.
Qed.

Lemma unparsed_start_is_internal_error_witness :
  SubmitBookingRequest.handler 0 no_faults (at_clock 9 0) (at_clock 9 0)
    (post "123456" 1 "1130" 60) sample_db
  = (Return {| statusCode := 500;
               responseBody :=
                 Failure "Failed to submit booking request" "Invalid time value" |},
     sample_db).
Proof.
  apply (unparsed_start_is_internal_error 0 no_faults (at_clock 9 0) (at_clock 9 0)
           (post "123456" 1 "1130" 60) sample_db
           {| student_id := Some "123456"; room_id := Some 1;
              start_time := Some "1130"; duration := Some 60 |}
           "123456" 1 "1130" 60).
  - reflexivity.
  - reflexivity.
  - apply sample_eligible; [discriminate | lia].
  - right. reflexivity.
Defined.

Lemma clock_parts_wide_table :
  forallb (fun h =>
    forallb (fun m =>
      match SubmitBookingRequest.parsePart (Str.split ":" (Str.clock h m)) 0,
            SubmitBookingRequest.parsePart (Str.split ":" (Str.clock h m)) 1 with
      | Some a, Some b => (a =? h) && (b =? m)
      | _, _ => false
      end) (seqZ 0 100)) (seqZ 0 100) = true.
Proof. vm_compute. reflexivity. Qed.

Lemma clock_parts_wide (h m : Z) :
  0 <= h < 100 -> 0 <= m < 100 ->
  SubmitBookingRequest.parsePart (Str.split ":" (Str.clock h m)) 0 = Some h
  /\ SubmitBookingRequest.parsePart (Str.split ":" (Str.clock h m)) 1 = Some m.
Proof.
  intros Hh Hm.
  pose proof clock_parts_wide_table as T.
  rewrite forallb_forall in T.
  specialize (T h). rewrite <- list_elem_of_In, elem_of_seqZ in T.
  specialize (T ltac:(lia)).
  rewrite forallb_forall in T.
  specialize (T m). rewrite <- list_elem_of_In, elem_of_seqZ in T.
  specialize (T ltac:(lia)).
  destruct (SubmitBookingRequest.parsePart _ 0) as [a|]; [|discriminate].
  destruct (SubmitBookingRequest.parsePart _ 1) as [c|]; [|discriminate].
  apply andb_prop in T. destruct T as [Ta Tc].
  apply Z.eqb_eq in Ta, Tc. subst. split; reflexivity.
Qed.

(** A submission that passes every rule, the store answering its calls. *)
Lemma submit_accepts (tz : Z) (f : Faults) (today now : Z) (ev : Event)
    (db : Db) (b : Body) (sid : string) (rid : Z) (st : string) (d s : Z) :
  httpMethod ev = "POST" ->
  body ev = Parsed b ->
  Spec.Eligible f db b sid rid st d ->
  SubmitBookingRequest.startDateTime tz today st = Some s ->
  Z.abs (s + d * Time.msPerMinute) <= Time.maxTime ->
  now < s ->
  (forall k, In k (bookings db) -> Booking.room_id k = rid ->
     ~ Spec.Overlap (Booking.start_time k) (Booking.end_time k)
         s (s + d * Time.msPerMinute)) ->
  bookings_error f = None -> requests_error f = None -> insert_error f = None ->
  SubmitBookingRequest.handler tz f today now ev db
  = (Return {| statusCode := 200;
               responseBody :=
                 Submitted "Booking request submitted successfully"
                   (next_request_id db) |},
     {| rooms := rooms db;
        bookings := bookings db;
        booking_requests :=
          (booking_requests db
           ++ [Request.mk (next_request_id db) sid rid s
                 (s + d * Time.msPerMinute) pending])%list;
        next_request_id := next_request_id db + 1 |}).
Proof.
  intros Hm Hb Hel Hs He Hnow Hfree Hbk Hrq Hins.
  unfold SubmitBookingRequest.handler. rewrite Hm, Hb. simpl.
  unfold_M. enter Hel. rewrite Hs.
  unfold SubmitBookingRequest.endDateTime, Time.plus, Time.TimeClip.
  unfold Time.msPerMinute in *. simpl.
  destruct (Z.leb_spec s now) as [| _]; [lia |].
  destruct (Z.leb_spec (Z.abs (s + d * 60000)) Time.maxTime) as [_ | Hbad]; [| lia].
  rewrite Hbk, Hrq, Hins. unfold answer. simpl.
  assert (List.filter (SubmitBookingRequest.conflicting rid s (s + d * 60000))
            (bookings db) = []) as ->.
  { destruct (List.filter _ (bookings db)) as [|k t] eqn:F; [reflexivity |].
    assert (In k (k :: t)) as Hin by (left; reflexivity).
    rewrite <- F in Hin. apply filter_In in Hin. destruct Hin as [Hin Hk].
    apply conflicting_spec in Hk. destruct Hk as (Hr & H1 & H2).
    exfalso. apply (Hfree k Hin Hr). unfold Spec.Overlap. lia. }
  reflexivity.
Qed.

(** X3. Hours past 23 are not refused: they carry over.  A submission
    with start clock HH:MM, 24 <= HH <= 99, that passes the rules is
    accepted with its start on a later calendar date, the current one
    plus HH / 24 days. *)
Theorem late_hours_carry_over (tz : Z) (f : Faults) (today now : Z) (ev : Event)
    (db : Db) (b : Body) (sid : string) (rid h m d s : Z) :
  httpMethod ev = "POST" ->
  body ev = Parsed b ->
  Spec.Eligible f db b sid rid (Str.clock h m) d ->
  24 <= h < 100 -> 0 <= m < 60 ->
  Z.abs today + 6 * Time.msPerDay <= Time.maxTime ->
  s = Time.Day (Time.LocalTime tz today) * Time.msPerDay
      + (h * Time.msPerHour + m * Time.msPerMinute) - tz ->
  now < s ->
  (forall k, In k (bookings db) -> Booking.room_id k = rid ->
     ~ Spec.Overlap (Booking.start_time k) (Booking.end_time k)
         s (s + d * Time.msPerMinute)) ->
  bookings_error f = None -> requests_error f = None -> insert_error f = None ->
  SubmitBookingRequest.handler tz f today now ev db
  = (Return {| statusCode := 200;
               responseBody :=
                 Submitted "Booking request submitted successfully"
                   (next_request_id db) |},
     {| rooms := rooms db;
        bookings := bookings db;
        booking_requests :=
          (booking_requests db
           ++ [Request.mk (next_request_id db) sid rid s
                 (s + d * Time.msPerMinute) pending])%list;
        next_request_id := next_request_id db + 1 |})
  /\ Time.Day (Time.LocalTime tz s) = Time.Day (Time.LocalTime tz today) + h / 24
  /\ Time.Day (Time.LocalTime tz today) < Time.Day (Time.LocalTime tz s).
Proof.
  intros Hm Hb Hel Hh Hmin Hrange Hs Hnow Hfree Hbk Hrq Hins.
  pose proof (Spec.el_range _ _ _ _ _ _ _ Hel) as Hd.
  assert (Time.Day (Time.LocalTime tz s)
          = Time.Day (Time.LocalTime tz today) + h / 24) as Hday.
  { rewrite Hs. unfold_time. symmetry.
    apply (Z.div_unique _ _ _ ((h mod 24) * 3600000 + m * 60000)).
    - Z.div_mod_to_equations. lia.
    - Z.div_mod_to_equations. lia. }
  split; [| split; [exact Hday |]].
  - apply (submit_accepts tz f today now ev db b sid rid (Str.clock h m) d s);
      try assumption.
    + unfold SubmitBookingRequest.startDateTime.
      destruct (clock_parts_wide h m ltac:(lia) ltac:(lia)) as [-> ->].
      unfold Time.onDayOf, Time.UTC, Time.MakeDate, Time.MakeTime, Time.TimeClip.
      replace (Time.Day (Time.LocalTime tz today) * Time.msPerDay
               + (h * Time.msPerHour + m * Time.msPerMinute + 0 * 1000 + 0) - tz)
        with s by (rewrite Hs; lia).
      destruct (Z.leb_spec (Z.abs s) Time.maxTime) as [_ | Hbad]; [reflexivity |].
      exfalso. rewrite Hs in Hbad. unfold_time.
      Z.div_mod_to_equations. lia.
    + rewrite Hs. unfold_time. Z.div_mod_to_equations. lia.
  - rewrite Hday. assert (1 <= h / 24) by (Z.div_mod_to_equations; lia). lia.
Qed.

Lemma late_hours_carry_over_witness :
  SubmitBookingRequest.handler 0 no_faults (at_clock 9 0) (at_clock 9 0)
    (post "123456" 1 (Str.clock 25 0) 60) sample_db
  = (Return {| statusCode := 200;
               responseBody :=
                 Submitted "Booking request submitted successfully"
                   (next_request_id sample_db) |},
     {| rooms := rooms sample_db;
        bookings := bookings sample_db;
        booking_requests :=
          (booking_requests sample_db
           ++ [Request.mk (next_request_id sample_db) "123456" 1 (at_clock 25 0)
                 (at_clock 25 0 + 60 * Time.msPerMinute) pending])%list;
        next_request_id := next_request_id sample_db + 1 |})
  /\ Time.Day (Time.LocalTime 0 (at_clock 25 0))
     = Time.Day (Time.LocalTime 0 (at_clock 9 0)) + 25 / 24
  /\ Time.Day (Time.LocalTime 0 (at_clock 9 0))
     < Time.Day (Time.LocalTime 0 (at_clock 25 0)).
Proof.
  apply (late_hours_carry_over 0 no_faults (at_clock 9 0) (at_clock 9 0)
           (post "123456" 1 (Str.clock 25 0) 60) sample_db
           {| student_id := Some "123456"; room_id := Some 1;
              start_time := Some (Str.clock 25 0); duration := Some 60 |}
           "123456" 1 25 0 60 (at_clock 25 0)).
  - reflexivity.
  - reflexivity.
  - apply (sample_eligible (Str.clock 25 0) 60); [discriminate | lia].
  - lia.
  - lia.
  - vm_compute. discriminate.
  - vm_compute. reflexivity.
  - vm_compute. reflexivity.
  - intros k [<- | []] _ [H1 H2]. vm_compute in H2. discriminate H2.
  - reflexivity.
  - reflexivity.
  - reflexivity.
Defined.

(** ** What the store's failures become *)

(** X4. For a submission that passes the rules on its fields, the answer
    is 400 "Invalid room ID" exactly when the room lookup fails: the query
    is answered with an error (a storage failure is reported so, not as a
    500), or the rooms with that id are not exactly one. *)
Theorem invalid_room_iff_lookup_fails (tz : Z) (f : Faults) (today now : Z)
    (ev : Event) (db : Db) (b : Body) (sid : string) (rid : Z) (st : string) (d : Z) :
  httpMethod ev = "POST" ->
  body ev = Parsed b ->
  SubmitBookingRequest.present b = Some (sid, rid, st, d) ->
  Spec.ValidStudentId sid ->
  30 <= d <= 120 ->
  (fst (SubmitBookingRequest.handler tz f today now ev db)
   = Return (Spec.rejection Spec.InvalidRoom)
   <-> rooms_error f <> None
       \/ length (List.filter (fun r => Room.id r =? rid) (rooms db)) <> 1%nat).
Proof.
  intros Hm Hb Hp Hsid Hd.
  apply match_digits_valid in Hsid.
  assert ((d <? 30) || (d >? 120) = false) as Hrange
    by (apply orb_false_iff; split; lia).
  unfold SubmitBookingRequest.handler. rewrite Hm, Hb. simpl.
  unfold_M. rewrite Hp, Hsid, Hrange. simpl. unfold answer.
  destruct (rooms_error f) as [e|]; simpl.
  - split; [intros _; left; discriminate | reflexivity].
  - destruct (List.filter _ (rooms db)) as [|x [|y t]]; simpl.
    + split; [intros _; right; discriminate | reflexivity].
    + split.
      * run_handler; discriminate.
      * intros [H | H]; congruence.
    + split; [intros _; right; discriminate | reflexivity].
Qed.

Lemma invalid_room_iff_lookup_fails_witness :
  fst (SubmitBookingRequest.handler 0
         {| rooms_error := Some "connection refused"; bookings_error := None;
            requests_error := None; insert_error := None |}
         (at_clock 9 0) (at_clock 9 0) (post "123456" 1 "11:00" 60) sample_db)
  = Return (Spec.rejection Spec.InvalidRoom)
  <-> rooms_error
        {| rooms_error := Some "connection refused"; bookings_error := None;
           requests_error := None; insert_error := None |} <> None
      \/ length (List.filter (fun r => Room.id r =? 1) (rooms sample_db)) <> 1%nat.
Proof.
  apply (invalid_room_iff_lookup_fails 0 _ (at_clock 9 0) (at_clock 9 0)
           (post "123456" 1 "11:00" 60) sample_db
           {| student_id := Some "123456"; room_id := Some 1;
              start_time := Some "11:00"; duration := Some 60 |}
           "123456" 1 "11:00" 60).
  - reflexivity.
  - reflexivity.
  - reflexivity.
  - split; [left; reflexivity | repeat constructor].
  - lia.
Defined.

(** X5. Once a submission has passed the rules on its fields, its room
    and its start instant, a failure of the store is answered 500 with the
    store's message and nothing is written: a failed bookings query; with
    no conflict, a failed pending-requests query (whose rows are never
    looked at); and, after both, a failed insert. *)
Theorem storage_failure_is_500 (tz : Z) (f : Faults) (today now : Z) (ev : Event)
    (db : Db) (b : Body) (sid : string) (rid : Z) (st : string) (d s e : Z) :
  httpMethod ev = "POST" ->
  body ev = Parsed b ->
  Spec.Eligible f db b sid rid st d ->
  SubmitBookingRequest.startDateTime tz today st = Some s ->
  SubmitBookingRequest.endDateTime (Some s) d = Some e ->
  now < s ->
  (forall err, bookings_error f = Some err ->
     SubmitBookingRequest.handler tz f today now ev db
     = (Return {| statusCode := 500;
                  responseBody := Failure "Failed to submit booking request" err |},
        db))
  /\ (forall err,
        bookings_error f = None ->
        List.filter (SubmitBookingRequest.conflicting rid s e) (bookings db) = [] ->
        requests_error f = Some err ->
        SubmitBookingRequest.handler tz f today now ev db
        = (Return {| statusCode := 500;
                     responseBody := Failure "Failed to submit booking request" err |},
           db))
  /\ (forall err,
        bookings_error f = None ->
        List.filter (SubmitBookingRequest.conflicting rid s e) (bookings db) = [] ->
        requests_error f = None ->
        insert_error f = Some err ->
        SubmitBookingRequest.handler tz f today now ev db
        = (Return {| statusCode := 500;
                     responseBody := Failure "Failed to submit booking request" err |},
           db)).
Proof.
  intros Hm Hb Hel Hs He Hnow.
  unfold SubmitBookingRequest.handler. rewrite Hm, Hb. simpl.
  unfold_M. enter Hel. rewrite Hs, He. simpl.
  destruct (Z.leb_spec s now) as [| _]; [lia |].
  unfold answer.
  split; [| split].
  - intros err ->. reflexivity.
  - intros err -> -> ->. reflexivity.
  - intros err -> -> -> ->. reflexivity.
Qed.

Lemma sample_eligible_under (f : Faults) (st : string) (d : Z) :
  rooms_error f = None ->
  st <> "" -> 30 <= d <= 120 ->
  Spec.Eligible f sample_db
    {| student_id := Some "123456"; room_id := Some 1;
       start_time := Some st; duration := Some d |}
    "123456" 1 st d.
Proof.
  intros Hf Hst Hd. constructor; try reflexivity.
  - split; [discriminate | exact Hst].
  - split; [left; reflexivity | repeat constructor].
  - exact Hd.
  - exact Hf.
  - exact sample_rooms_unique.
  - exists (Room.mk 1 "Room A" "students" true).
    split; [right; left; reflexivity | split; reflexivity].
Defined.

Lemma storage_failure_is_500_witness :
  (forall err,
     bookings_error
       {| rooms_error := None; bookings_error := None;
          requests_error := Some "timeout"; insert_error := None |} = Some err ->
     SubmitBookingRequest.handler 0
       {| rooms_error := None; bookings_error := None;
          requests_error := Some "timeout"; insert_error := None |}
       (at_clock 9 0) (at_clock 9 0) (post "123456" 1 "11:00" 60) sample_db
     = (Return {| statusCode := 500;
                  responseBody := Failure "Failed to submit booking request" err |},
        sample_db))
  /\ (forall err,
        bookings_error
          {| rooms_error := None; bookings_error := None;
             requests_error := Some "timeout"; insert_error := None |} = None ->
        List.filter (SubmitBookingRequest.conflicting 1 (at_clock 11 0) (at_clock 12 0))
          (bookings sample_db) = [] ->
        requests_error
          {| rooms_error := None; bookings_error := None;
             requests_error := Some "timeout"; insert_error := None |} = Some err ->
        SubmitBookingRequest.handler 0
          {| rooms_error := None; bookings_error := None;
             requests_error := Some "timeout"; insert_error := None |}
          (at_clock 9 0) (at_clock 9 0) (post "123456" 1 "11:00" 60) sample_db
        = (Return {| statusCode := 500;
                     responseBody := Failure "Failed to submit booking request" err |},
           sample_db))
  /\ (forall err,
        bookings_error
          {| rooms_error := None; bookings_error := None;
             requests_error := Some "timeout"; insert_error := None |} = None ->
        List.filter (SubmitBookingRequest.conflicting 1 (at_clock 11 0) (at_clock 12 0))
          (bookings sample_db) = [] ->
        requests_error
          {| rooms_error := None; bookings_error := None;
             requests_error := Some "timeout"; insert_error := None |} = None ->
        insert_error
          {| rooms_error := None; bookings_error := None;
             requests_error := Some "timeout"; insert_error := None |} = Some err ->
        SubmitBookingRequest.handler 0
          {| rooms_error := None; bookings_error := None;
             requests_error := Some "timeout"; insert_error := None |}
          (at_clock 9 0) (at_clock 9 0) (post "123456" 1 "11:00" 60) sample_db
        = (Return {| statusCode := 500;
                     responseBody := Failure "Failed to submit booking request" err |},
           sample_db)).
Proof.
  apply (storage_failure_is_500 0 _ (at_clock 9 0) (at_clock 9 0)
           (post "123456" 1 "11:00" 60) sample_db
           {| student_id := Some "123456"; room_id := Some 1;
              start_time := Some "11:00"; duration := Some 60 |}
           "123456" 1 "11:00" 60 (at_clock 11 0) (at_clock 12 0)).
  - reflexivity.
  - reflexivity.
  - apply sample_eligible_under; [reflexivity | discriminate | lia].
  - vm_compute. reflexivity.
  - vm_compute. reflexivity.
  - vm_compute. reflexivity.
Defined.

(** ** Failed reads *)

(** X6. getRooms answers with no partial result: when the rooms query
    fails, or the rooms query is answered and the bookings query fails,
    the answer is 500 "Failed to fetch rooms" with the message of that
    first failure; a room list is answered only when both queries were
    answered. *)
Theorem getRooms_fails_whole (f : Faults) (now : Z) (ev : Event) (db : Db) :
  httpMethod ev = "GET" ->
  (forall e, rooms_error f = Some e ->
     GetRooms.handler f now ev db
     = (Return {| statusCode := 500;
                  responseBody := Failure "Failed to fetch rooms" e |}, db))
  /\ (forall e, rooms_error f = None -> bookings_error f = Some e ->
        GetRooms.handler f now ev db
        = (Return {| statusCode := 500;
                     responseBody := Failure "Failed to fetch rooms" e |}, db))
  /\ (forall c l,
        fst (GetRooms.handler f now ev db)
        = Return {| statusCode := c; responseBody := RoomList l |} ->
        rooms_error f = None /\ bookings_error f = None).
Proof.
  intros Hm. unfold GetRooms.handler. rewrite Hm.
  change (String.eqb "GET" "OPTIONS") with false.
  change (negb (String.eqb "GET" "GET")) with false.
  unfold_M. unfold answer, order.
  split; [| split].
  - intros e ->. reflexivity.
  - intros e -> ->. reflexivity.
  - intros c l. destruct (rooms_error f); [discriminate |].
    destruct (bookings_error f); [discriminate |]. split; reflexivity.
Qed.

Lemma getRooms_fails_whole_witness :
  (forall e,
     rooms_error {| rooms_error := None; bookings_error := Some "timeout";
                    requests_error := None; insert_error := None |} = Some e ->
     GetRooms.handler
       {| rooms_error := None; bookings_error := Some "timeout";
          requests_error := None; insert_error := None |}
       (at_clock 9 0) get sample_db
     = (Return {| statusCode := 500;
                  responseBody := Failure "Failed to fetch rooms" e |}, sample_db))
  /\ (forall e,
        rooms_error {| rooms_error := None; bookings_error := Some "timeout";
                       requests_error := None; insert_error := None |} = None ->
        bookings_error {| rooms_error := None; bookings_error := Some "timeout";
                          requests_error := None; insert_error := None |} = Some e ->
        GetRooms.handler
          {| rooms_error := None; bookings_error := Some "timeout";
             requests_error := None; insert_error := None |}
          (at_clock 9 0) get sample_db
        = (Return {| statusCode := 500;
                     responseBody := Failure "Failed to fetch rooms" e |}, sample_db))
  /\ (forall c l,
        fst (GetRooms.handler
               {| rooms_error := None; bookings_error := Some "timeout";
                  requests_error := None; insert_error := None |}
               (at_clock 9 0) get sample_db)
        = Return {| statusCode := c; responseBody := RoomList l |} ->
        rooms_error {| rooms_error := None; bookings_error := Some "timeout";
                       requests_error := None; insert_error := None |} = None
        /\ bookings_error {| rooms_error := None; bookings_error := Some "timeout";
                             requests_error := None; insert_error := None |} = None).
Proof.
  apply (getRooms_fails_whole
           {| rooms_error := None; bookings_error := Some "timeout";
              requests_error := None; insert_error := None |}
           (at_clock 9 0) get sample_db).
  reflexivity.
Defined.

(** ** The schedule in full *)

(** The display window of the schedule: 08:00 and 19:00 of the local day
    of [now]. *)
Lemma schedule_window (tz now : Z) :
  Z.abs now + 2 * Time.msPerDay <= Time.maxTime ->
  Time.onDayOf tz now (Some 8) (Some 0) 0
  = Some (Time.Day (Time.LocalTime tz now) * Time.msPerDay + 8 * Time.msPerHour - tz)
  /\ Time.onDayOf tz now (Some 19) (Some 0) 0
     = Some (Time.Day (Time.LocalTime tz now) * Time.msPerDay + 19 * Time.msPerHour - tz).
Proof.
  intros Hrange.
  pose proof (clock_time_bounds tz now 8 0 ltac:(lia) ltac:(lia)) as B8.
  pose proof (clock_time_bounds tz now 19 0 ltac:(lia) ltac:(lia)) as B19.
  unfold Time.onDayOf, Time.UTC, Time.MakeDate, Time.MakeTime, Time.TimeClip.
  split.
  - replace (Time.Day (Time.LocalTime tz now) * Time.msPerDay
             + (8 * Time.msPerHour + 0 * Time.msPerMinute + 0 * 1000 + 0) - tz)
      with (Time.Day (Time.LocalTime tz now) * Time.msPerDay
            + 8 * Time.msPerHour - tz) by lia.
    destruct (Z.leb_spec
                (Z.abs (Time.Day (Time.LocalTime tz now) * Time.msPerDay
                        + 8 * Time.msPerHour - tz)) Time.maxTime);
      [reflexivity | unfold Time.msPerDay in *; lia].
  - replace (Time.Day (Time.LocalTime tz now) * Time.msPerDay
             + (19 * Time.msPerHour + 0 * Time.msPerMinute + 0 * 1000 + 0) - tz)
      with (Time.Day (Time.LocalTime tz now) * Time.msPerDay
            + 19 * Time.msPerHour - tz) by lia.
    destruct (Z.leb_spec
                (Z.abs (Time.Day (Time.LocalTime tz now) * Time.msPerDay
                        + 19 * Time.msPerHour - tz)) Time.maxTime);
      [reflexivity | unfold Time.msPerDay in *; lia].
Qed.

Lemma filter_perm {A} (p : A -> bool) (l l' : list A) :
  Permutation l l' -> Permutation (List.filter p l) (List.filter p l').
Proof.
  induction 1 as [| x l l' _ IH | x y l | l l' l'' _ IH1 _ IH2]; simpl.
  - constructor.
  - destruct (p x); [constructor |]; exact IH.
  - destruct (p x), (p y); try reflexivity. apply perm_swap.
  - etransitivity; eassumption.
Qed.

Lemma filter_filter_and {A} (p q : A -> bool) (l : list A) :
  List.filter p (List.filter q l) = List.filter (fun x => p x && q x) l.
Proof.
  induction l as [|x l IH]; simpl; [reflexivity |].
  destruct (q x); simpl; [destruct (p x); simpl; rewrite IH; reflexivity |].
  rewrite andb_false_r. exact IH.
Qed.

Lemma filter_sorted {A} (R : A -> A -> Prop) (p : A -> bool) (l : list A) :
  StronglySorted R l -> StronglySorted R (List.filter p l).
Proof.
  induction 1 as [|x l Hs IH Hx]; simpl; [constructor |].
  destruct (p x); [| exact IH].
  constructor; [exact IH |].
  rewrite List.Forall_forall in *. intros y Hy.
  apply filter_In in Hy. apply Hx. tauto.
Qed.

(** X7. getRoomSchedules answers with no partial result: the first of the
    rooms query and the bookings query to fail makes the answer 500
    "Failed to fetch room schedules" with that failure's message, and a
    schedule is answered only when both queries were answered. *)
Theorem getRoomSchedules_fails_whole (tz : Z) (f : Faults) (now : Z)
    (ev : Event) (db : Db) :
  httpMethod ev = "GET" ->
  Z.abs now + 2 * Time.msPerDay <= Time.maxTime ->
  (forall e, rooms_error f = Some e ->
     GetRoomSchedules.handler tz f now ev db
     = (Return {| statusCode := 500;
                  responseBody := Failure "Failed to fetch room schedules" e |}, db))
  /\ (forall e, rooms_error f = None -> bookings_error f = Some e ->
        GetRoomSchedules.handler tz f now ev db
        = (Return {| statusCode := 500;
                     responseBody := Failure "Failed to fetch room schedules" e |}, db))
  /\ (forall c d l,
        fst (GetRoomSchedules.handler tz f now ev db)
        = Return {| statusCode := c; responseBody := Schedule d l |} ->
        rooms_error f = None /\ bookings_error f = None).
Proof.
  intros Hm Hrange.
  destruct (schedule_window tz now Hrange) as [Hlo Hhi].
  enter_schedule Hm. rewrite Hlo, Hhi.
  split; [| split].
  - intros e ->. reflexivity.
  - intros e -> ->. reflexivity.
  - intros c d l. destruct (rooms_error f); [discriminate |].
    destruct (bookings_error f); [discriminate |]. split; reflexivity.
Qed.

Lemma getRoomSchedules_fails_whole_witness :
  (forall e,
     rooms_error {| rooms_error := Some "timeout"; bookings_error := None;
                    requests_error := None; insert_error := None |} = Some e ->
     GetRoomSchedules.handler 0
       {| rooms_error := Some "timeout"; bookings_error := None;
          requests_error := None; insert_error := None |}
       (at_clock 9 0) get sample_db
     = (Return {| statusCode := 500;
                  responseBody := Failure "Failed to fetch room schedules" e |},
        sample_db))
  /\ (forall e,
        rooms_error {| rooms_error := Some "timeout"; bookings_error := None;
                       requests_error := None; insert_error := None |} = None ->
        bookings_error {| rooms_error := Some "timeout"; bookings_error := None;
                          requests_error := None; insert_error := None |} = Some e ->
        GetRoomSchedules.handler 0
          {| rooms_error := Some "timeout"; bookings_error := None;
             requests_error := None; insert_error := None |}
          (at_clock 9 0) get sample_db
        = (Return {| statusCode := 500;
                     responseBody := Failure "Failed to fetch room schedules" e |},
           sample_db))
  /\ (forall c d l,
        fst (GetRoomSchedules.handler 0
               {| rooms_error := Some "timeout"; bookings_error := None;
                  requests_error := None; insert_error := None |}
               (at_clock 9 0) get sample_db)
        = Return {| statusCode := c; responseBody := Schedule d l |} ->
        rooms_error {| rooms_error := Some "timeout"; bookings_error := None;
                       requests_error := None; insert_error := None |} = None
        /\ bookings_error {| rooms_error := Some "timeout"; bookings_error := None;
                             requests_error := None; insert_error := None |} = None).
Proof.
  apply (getRoomSchedules_fails_whole 0
           {| rooms_error := Some "timeout"; bookings_error := None;
              requests_error := None; insert_error := None |}
           (at_clock 9 0) get sample_db).
  - reflexivity.
  - vm_compute. discriminate.
Defined.

(** X8. Answering a GET with both reads answered, getRoomSchedules lists
    exactly the active rooms, each once with its id and name, by ascending
    id; a room with no booking in the window is listed with no entry. *)
Theorem schedule_lists_active_rooms (tz : Z) (f : Faults) (now : Z)
    (ev : Event) (db : Db) :
  httpMethod ev = "GET" ->
  rooms_error f = None ->
  bookings_error f = None ->
  Z.abs now + 2 * Time.msPerDay <= Time.maxTime ->
  exists l,
    GetRoomSchedules.handler tz f now ev db
    = (Return {| statusCode := 200;
                 responseBody := Schedule (Time.Day now) l |}, db)
    /\ Permutation
         (List.map (fun s => (RoomSchedule.id s, RoomSchedule.name s)) l)
         (List.map (fun r => (Room.id r, Room.name r))
            (List.filter Room.is_active (rooms db)))
    /\ StronglySorted Z.le (List.map RoomSchedule.id l)
    /\ (forall s, In s l ->
          (forall k, In k (bookings db) ->
             Booking.room_id k <> RoomSchedule.id s) ->
          RoomSchedule.bookings s = []).
Proof.
  intros Hm Hr Hb Hrange.
  destruct (schedule_window tz now Hrange) as [Hlo Hhi].
  rewrite (schedule_run tz f now ev db _ _ Hm Hr Hb Hlo Hhi).
  eexists. split; [reflexivity |].
  split; [| split].
  - rewrite map_map. simpl. apply Permutation_map. apply order_by_perm.
  - rewrite map_map. simpl. apply sorted_map_key. apply order_by_sorted.
  - intros s Hs Hnone. apply in_map_iff in Hs. destruct Hs as (room & <- & _).
    unfold schedule_of. simpl.
    match goal with
    | |- List.map _ ?l = [] => destruct l as [|k t] eqn:F; [reflexivity |]
    end.
    assert (In k (k :: t)) as Hin by (left; reflexivity).
    rewrite <- F in Hin. apply filter_In in Hin. destruct Hin as [Hin Hk].
    apply order_by_In in Hin. apply filter_In in Hin. destruct Hin as [Hin _].
    apply Z.eqb_eq in Hk. exfalso. exact (Hnone k Hin Hk).
Qed.

Lemma schedule_lists_active_rooms_witness :
  exists l,
    GetRoomSchedules.handler 0 no_faults (at_clock 9 0) get sample_db
    = (Return {| statusCode := 200;
                 responseBody := Schedule (Time.Day (at_clock 9 0)) l |}, sample_db)
    /\ Permutation
         (List.map (fun s => (RoomSchedule.id s, RoomSchedule.name s)) l)
         (List.map (fun r => (Room.id r, Room.name r))
            (List.filter Room.is_active (rooms sample_db)))
    /\ StronglySorted Z.le (List.map RoomSchedule.id l)
    /\ (forall s, In s l ->
          (forall k, In k (bookings sample_db) ->
             Booking.room_id k <> RoomSchedule.id s) ->
          RoomSchedule.bookings s = []).
Proof.
  apply (schedule_lists_active_rooms 0 no_faults (at_clock 9 0) get sample_db).
  - reflexivity.
  - reflexivity.
  - reflexivity.
  - vm_compute. discriminate.
Defined.

(** X9. The entries of a room in the schedule are exactly the bookings of
    that room with end_time >= 08:00 and start_time <= 19:00 of the local
    day (both bounds included), each once, as student_id, start_time and
    end_time, by ascending start_time. *)
Theorem schedule_entries (tz : Z) (f : Faults) (now : Z) (ev : Event) (db : Db)
    (c d : Z) (l : list RoomSchedule.t) :
  httpMethod ev = "GET" ->
  Z.abs now + 2 * Time.msPerDay <= Time.maxTime ->
  fst (GetRoomSchedules.handler tz f now ev db)
  = Return {| statusCode := c; responseBody := Schedule d l |} ->
  forall s, In s l ->
    Permutation (RoomSchedule.bookings s)
      (List.map slot_of
         (List.filter
            (fun k =>
               (Booking.room_id k =? RoomSchedule.id s)
               && ((Time.Day (Time.LocalTime tz now) * Time.msPerDay
                    + 8 * Time.msPerHour - tz <=? Booking.end_time k)
                   && (Booking.start_time k
                       <=? Time.Day (Time.LocalTime tz now) * Time.msPerDay
                           + 19 * Time.msPerHour - tz)))
            (bookings db)))
    /\ StronglySorted Z.le (List.map Slot.start_time (RoomSchedule.bookings s)).
Proof.
  intros Hm Hrange Hresp s Hs.
  destruct (schedule_window tz now Hrange) as [Hlo Hhi].
  destruct (rooms_error f) as [e|] eqn:Hr.
  { revert Hresp. enter_schedule Hm. rewrite Hr. discriminate. }
  destruct (bookings_error f) as [e|] eqn:Hb.
  { revert Hresp. enter_schedule Hm. rewrite Hr, Hlo, Hhi, Hb. discriminate. }
  rewrite (schedule_run tz f now ev db _ _ Hm Hr Hb Hlo Hhi) in Hresp.
  simpl in Hresp. injection Hresp as _ _ <-.
  apply in_map_iff in Hs. destruct Hs as (room & <- & _).
  unfold schedule_of, in_window. simpl. split.
  - apply Permutation_map.
    etransitivity; [apply filter_perm; apply order_by_perm |].
    rewrite filter_filter_and. reflexivity.
  - rewrite map_map. simpl.
    apply (sorted_map_key Booking.start_time).
    apply filter_sorted. apply order_by_sorted.
Qed.

Lemma schedule_entries_witness :
  Permutation
    (RoomSchedule.bookings
       (RoomSchedule.mk 1 "Room A"
          [Slot.mk "654321" (at_clock 10 0) (at_clock 11 0)]))
    (List.map slot_of
       (List.filter
          (fun k =>
             (Booking.room_id k =? 1)
             && ((Time.Day (Time.LocalTime 0 (at_clock 9 0)) * Time.msPerDay
                  + 8 * Time.msPerHour - 0 <=? Booking.end_time k)
                 && (Booking.start_time k
                     <=? Time.Day (Time.LocalTime 0 (at_clock 9 0)) * Time.msPerDay
                         + 19 * Time.msPerHour - 0)))
          (bookings sample_db)))
  /\ StronglySorted Z.le
       (List.map Slot.start_time
          (RoomSchedule.bookings
             (RoomSchedule.mk 1 "Room A"
                [Slot.mk "654321" (at_clock 10 0) (at_clock 11 0)]))).
Proof.
  apply (schedule_entries 0 no_faults (at_clock 9 0) get sample_db 200
           (Time.Day (at_clock 9 0))
           [ RoomSchedule.mk 1 "Room A"
               [Slot.mk "654321" (at_clock 10 0) (at_clock 11 0)];
             RoomSchedule.mk 2 "Room B" [] ]).
  - reflexivity.
  - vm_compute. discriminate.
  - vm_compute. reflexivity.
  - simpl. left. reflexivity.
Defined.

(** X10. The [date] of the schedule is the UTC calendar date of [now],
    while its entries are cut by the window of the local calendar date:
    each ends at or after 08:00 and starts at or before 19:00 of the local
    date.  The two dates are the same exactly when the local clock has not
    passed midnight ahead of, or behind, the UTC clock; when they differ,
    no entry of the answer lies within 08:00 to 19:00 (local) of the date
    that [date] names. *)
Theorem schedule_date_is_utc (tz : Z) (f : Faults) (now : Z) (ev : Event)
    (db : Db) (c d : Z) (l : list RoomSchedule.t) :
  - Time.msPerDay < tz < Time.msPerDay ->
  Z.abs now + 2 * Time.msPerDay <= Time.maxTime ->
  fst (GetRoomSchedules.handler tz f now ev db)
  = Return {| statusCode := c; responseBody := Schedule d l |} ->
  d = Time.Day now
  /\ (forall s x, In s l -> In x (RoomSchedule.bookings s) ->
        Time.Day (Time.LocalTime tz now) * Time.msPerDay + 8 * Time.msPerHour - tz
        <= Slot.end_time x
        /\ Slot.start_time x
           <= Time.Day (Time.LocalTime tz now) * Time.msPerDay
              + 19 * Time.msPerHour - tz)
  /\ (d = Time.Day (Time.LocalTime tz now)
      <-> 0 <= Time.TimeWithinDay now + tz < Time.msPerDay)
  /\ (d <> Time.Day (Time.LocalTime tz now) ->
      forall s x, In s l -> In x (RoomSchedule.bookings s) ->
        ~ (d * Time.msPerDay + 8 * Time.msPerHour - tz <= Slot.start_time x
           /\ Slot.end_time x <= d * Time.msPerDay + 19 * Time.msPerHour - tz)).
Proof.
  intros Htz Hrange Hresp.
  apply schedule_answered in Hresp.
  destruct Hresp as (lo & hi & Elo & Ehi & -> & ->).
  destruct (schedule_window tz now Hrange) as [Hlo Hhi].
  rewrite Hlo in Elo. rewrite Hhi in Ehi.
  injection Elo as <-. injection Ehi as <-.
  assert (forall s x,
            In s (List.map
                    (schedule_of
                       (Time.Day (Time.LocalTime tz now) * Time.msPerDay
                        + 8 * Time.msPerHour - tz)
                       (Time.Day (Time.LocalTime tz now) * Time.msPerDay
                        + 19 * Time.msPerHour - tz) (bookings db))
                    (order_by Room.id (List.filter Room.is_active (rooms db)))) ->
            In x (RoomSchedule.bookings s) ->
            Time.Day (Time.LocalTime tz now) * Time.msPerDay + 8 * Time.msPerHour - tz
            <= Slot.end_time x
            /\ Slot.start_time x
               <= Time.Day (Time.LocalTime tz now) * Time.msPerDay
                  + 19 * Time.msPerHour - tz) as Hwin.
  { intros s x Hs Hx. apply in_map_iff in Hs. destruct Hs as (room & <- & _).
    apply schedule_of_In in Hx. destruct Hx as (k & _ & _ & H1 & H2 & ->).
    simpl. split; assumption. }
  split; [reflexivity |]. split; [exact Hwin |]. split.
  - unfold_time. split.
    + intros E. Z.div_mod_to_equations. lia.
    + intros B. Z.div_mod_to_equations. lia.
  - intros Hd s x Hs Hx [H1 H2].
    destruct (Hwin s x Hs Hx) as [W1 W2].
    unfold Time.msPerDay, Time.msPerHour in *. lia.
Qed.

Lemma schedule_date_is_utc_witness :
  Time.Day (at_clock 22 0) = Time.Day (at_clock 22 0)
  /\ (forall s x,
        In s [ RoomSchedule.mk 1 "Room A" []; RoomSchedule.mk 2 "Room B" [] ] ->
        In x (RoomSchedule.bookings s) ->
        Time.Day (Time.LocalTime (4 * Time.msPerHour) (at_clock 22 0)) * Time.msPerDay
        + 8 * Time.msPerHour - 4 * Time.msPerHour
        <= Slot.end_time x
        /\ Slot.start_time x
           <= Time.Day (Time.LocalTime (4 * Time.msPerHour) (at_clock 22 0))
              * Time.msPerDay
              + 19 * Time.msPerHour - 4 * Time.msPerHour)
  /\ (Time.Day (at_clock 22 0)
      = Time.Day (Time.LocalTime (4 * Time.msPerHour) (at_clock 22 0))
      <-> 0 <= Time.TimeWithinDay (at_clock 22 0) + 4 * Time.msPerHour
          < Time.msPerDay)
  /\ (Time.Day (at_clock 22 0)
      <> Time.Day (Time.LocalTime (4 * Time.msPerHour) (at_clock 22 0)) ->
      forall s x,
        In s [ RoomSchedule.mk 1 "Room A" []; RoomSchedule.mk 2 "Room B" [] ] ->
        In x (RoomSchedule.bookings s) ->
        ~ (Time.Day (at_clock 22 0) * Time.msPerDay + 8 * Time.msPerHour
           - 4 * Time.msPerHour <= Slot.start_time x
           /\ Slot.end_time x
              <= Time.Day (at_clock 22 0) * Time.msPerDay + 19 * Time.msPerHour
                 - 4 * Time.msPerHour)).
Proof.
  apply (schedule_date_is_utc (4 * Time.msPerHour) no_faults (at_clock 22 0) get
           sample_db 200 (Time.Day (at_clock 22 0))
           [ RoomSchedule.mk 1 "Room A" []; RoomSchedule.mk 2 "Room B" [] ]).
  - vm_compute. split; reflexivity.
  - vm_compute. discriminate.
  - vm_compute. reflexivity.
Defined.

(** * The booking form *)

(** ** The student-id input *)

Lemma removeNonDigits_digits (s : string) :
  List.Forall (fun a => Str.is_digit a = true) (list_ascii_of_string (Js.removeNonDigits s)).
Proof.
  induction s as [|a r IH]; simpl; [constructor |].
  destruct (Str.is_digit a) eqn:E; [| exact IH].
  simpl. constructor; assumption.
Qed.

Lemma removeNonDigits_fixed (s : string) :
  List.Forall (fun a => Str.is_digit a = true) (list_ascii_of_string s) ->
  Js.removeNonDigits s = s.
Proof.
  induction s as [|a r IH]; simpl; intros H; [reflexivity |].
  inversion H as [|? ? Ha Hr]; subst. rewrite Ha, (IH Hr). reflexivity.
Qed.

Lemma substring0_digits (n : nat) (s : string) :
  List.Forall (fun a => Str.is_digit a = true) (list_ascii_of_string s) ->
  List.Forall (fun a => Str.is_digit a = true) (list_ascii_of_string (Js.substring0 n s)).
Proof.
  revert s. induction n as [|n IH]; intros [|a r] H; simpl; try constructor.
  - inversion H; assumption.
  - apply IH. inversion H; assumption.
Qed.

Lemma substring0_length (n : nat) (s : string) :
  String.length (Js.substring0 n s) = Nat.min n (String.length s).
Proof.
  revert s. induction n as [|n IH]; intros [|a r]; simpl; try reflexivity.
  rewrite IH. reflexivity.
Qed.

Lemma substring0_short (n : nat) (s : string) :
  (String.length s <= n)%nat -> Js.substring0 n s = s.
Proof.
  revert s. induction n as [|n IH]; intros [|a r]; simpl; intros H;
    try reflexivity; try lia.
  rewrite IH by lia. reflexivity.
Qed.

Lemma formatStudentId_shape (value : string) :
  List.Forall (fun a => Str.is_digit a = true)
    (list_ascii_of_string (App.formatStudentId value))
  /\ String.length (App.formatStudentId value)
     = Nat.min 7 (String.length (Js.removeNonDigits value)).
Proof.
  unfold App.formatStudentId. split.
  - apply substring0_digits. apply removeNonDigits_digits.
  - apply substring0_length.
Qed.

Lemma formatStudentId_chars (value : string) :
  list_ascii_of_string (App.formatStudentId value)
  = firstn 7 (List.filter Str.is_digit (list_ascii_of_string value)).
Proof.
  unfold App.formatStudentId.
  assert (forall s, list_ascii_of_string (Js.removeNonDigits s)
                    = List.filter Str.is_digit (list_ascii_of_string s)) as Hd.
  { induction s as [|a r IH]; simpl; [reflexivity |].
    destruct (Str.is_digit a); simpl; rewrite IH; reflexivity. }
  rewrite <- Hd. generalize (Js.removeNonDigits value). generalize 7%nat.
  induction n as [|n IH]; intros [|a r]; simpl; try reflexivity.
  rewrite IH. reflexivity.
Qed.

(** X11. Whatever is typed into the student-id input, the value the
    listener leaves is the first 7 digits typed, in the order typed (all
    of them when fewer were typed): digits only, 7 at most; formatting it
    again changes nothing. *)
Theorem student_id_input_formatted (value : string) :
  list_ascii_of_string (App.formatStudentId value)
  = firstn 7 (List.filter Str.is_digit (list_ascii_of_string value))
  /\ List.Forall (fun a => Str.is_digit a = true)
       (list_ascii_of_string (App.formatStudentId value))
  /\ (String.length (App.formatStudentId value) <= 7)%nat
  /\ String.length (App.formatStudentId value)
     = Nat.min 7 (String.length (Js.removeNonDigits value))
  /\ App.formatStudentId (App.formatStudentId value) = App.formatStudentId value.
Proof.
  destruct (formatStudentId_shape value) as [Hd Hl].
  split; [apply formatStudentId_chars |].
  split; [exact Hd |]. split; [lia |]. split; [exact Hl |].
  unfold App.formatStudentId at 1.
  rewrite (removeNonDigits_fixed _ Hd).
  apply substring0_short. lia.
Qed.

(** X12. The formatted value of the student-id input passes
    [validateStudentId] exactly when at least 6 digits were typed, and a
    valid student id is left as it is by the formatting. *)
Theorem formatted_student_id_valid (value : string) :
  (App.validateStudentId (App.formatStudentId value) = true
   <-> (6 <= String.length (Js.removeNonDigits value))%nat)
  /\ (App.validateStudentId value = true -> App.formatStudentId value = value).
Proof.
  destruct (formatStudentId_shape value) as [Hd Hl].
  unfold App.validateStudentId. split.
  - rewrite match_digits_spec. split.
    + intros [[H6 _] _]. lia.
    + intros H6. split; [lia | exact Hd].
  - rewrite match_digits_spec. intros [[_ H7] Hall].
    unfold App.formatStudentId. rewrite (removeNonDigits_fixed _ Hall).
    apply substring0_short. exact H7.
Qed.

(** ** Numbers written and read back *)

Lemma digits_of_uint (d : Decimal.uint) : forall acc : Z,
  Str.digits 10 (NilEmpty.string_of_uint d) (Some acc) = Some (Js.uint_value d acc).
Proof.
  induction d; intros acc; simpl; try reflexivity; apply IHd.
Qed.

Lemma digits_of_uint_start (d : Decimal.uint) :
  d <> Decimal.Nil ->
  Str.digits 10 (NilEmpty.string_of_uint d) None = Some (Js.uint_value d 0).
Proof.
  destruct d; intros H; simpl; try congruence; apply digits_of_uint.
Qed.

Lemma of_uint_acc_value (d : Decimal.uint) : forall acc : positive,
  Z.pos (Pos.of_uint_acc d acc) = Js.uint_value d (Z.pos acc).
Proof.
  induction d; intros acc; simpl; try reflexivity;
    rewrite IHd; f_equal; lia.
Qed.

Lemma of_uint_value (d : Decimal.uint) :
  Z.of_N (Pos.of_uint d) = Js.uint_value d 0.
Proof.
  induction d; simpl; try reflexivity; try exact IHd;
    rewrite of_uint_acc_value; reflexivity.
Qed.

Lemma to_uint_value (p : positive) : Js.uint_value (Pos.to_uint p) 0 = Z.pos p.
Proof.
  rewrite <- of_uint_value, DecimalPos.Unsigned.of_to. reflexivity.
Qed.

Lemma string_of_uint_nonnil (d : Decimal.uint) :
  d <> Decimal.Nil -> NilZero.string_of_uint d = NilEmpty.string_of_uint d.
Proof. destruct d; intros H; try reflexivity. congruence. Qed.

(** A string that starts with a digit, and goes on with a digit if that
    one is a zero, has no white space to skip, no sign and no radix
    prefix. *)
Lemma parseInt_plain (a : ascii) (r : string) :
  Str.is_digit a = true ->
  match r with
  | String c _ => Str.is_digit c = true
  | EmptyString => True
  end ->
  Str.parseInt (String a r)
  = match Str.digits 10 (String a r) None with
    | Some n => Some (1 * n)
    | None => None
    end.
Proof.
  intros Ha Hr.
  destruct a as [[] [] [] [] [] [] [] []]; try discriminate Ha;
    try reflexivity.
  destruct r as [|c r']; [reflexivity |].
  destruct c as [[] [] [] [] [] [] [] []]; try discriminate Hr; reflexivity.
Qed.

Lemma parseInt_minus (a : ascii) (r : string) :
  Str.is_digit a = true ->
  match r with
  | String c _ => Str.is_digit c = true
  | EmptyString => True
  end ->
  Str.parseInt (String "-" (String a r))
  = match Str.digits 10 (String a r) None with
    | Some n => Some (-1 * n)
    | None => None
    end.
Proof.
  intros Ha Hr.
  destruct a as [[] [] [] [] [] [] [] []]; try discriminate Ha;
    try reflexivity.
  destruct r as [|c r']; [reflexivity |].
  destruct c as [[] [] [] [] [] [] [] []]; try discriminate Hr; reflexivity.
Qed.

Lemma string_of_uint_shape (d : Decimal.uint) :
  match NilEmpty.string_of_uint d with
  | String a r =>
      Str.is_digit a = true
      /\ match r with
         | String c _ => Str.is_digit c = true
         | EmptyString => True
         end
  | EmptyString => d = Decimal.Nil
  end.
Proof.
  destruct d as [|d|d|d|d|d|d|d|d|d|d]; simpl; [reflexivity | ..];
    (split; [reflexivity | destruct d; simpl; auto]).
Qed.

Lemma parseInt_of_uint (d : Decimal.uint) :
  d <> Decimal.Nil ->
  Str.parseInt (NilEmpty.string_of_uint d) = Some (Js.uint_value d 0).
Proof.
  intros H. pose proof (digits_of_uint_start d H) as E.
  pose proof (string_of_uint_shape d) as S.
  destruct (NilEmpty.string_of_uint d) as [|a r]; [congruence |].
  destruct S as [Ha Hr]. rewrite (parseInt_plain a r Ha Hr), E. f_equal; lia.
Qed.

Lemma parseInt_of_neg_uint (d : Decimal.uint) :
  d <> Decimal.Nil ->
  Str.parseInt (String "-" (NilEmpty.string_of_uint d)) = Some (- Js.uint_value d 0).
Proof.
  intros H. pose proof (digits_of_uint_start d H) as E.
  pose proof (string_of_uint_shape d) as S.
  destruct (NilEmpty.string_of_uint d) as [|a r]; [congruence |].
  destruct S as [Ha Hr]. rewrite (parseInt_minus a r Ha Hr), E. f_equal; lia.
Qed.

(** X13. An integer written in decimal, as a room id is in the value of
    its option of the room selector, is read back by [parseInt] as the
    same integer, as the submit of the form reads the selected room. *)
Theorem parseInt_toString (n : Z) :
  Z.abs n < 2 ^ 53 ->
  Str.parseInt (Js.toString n) = Some n.
Proof.
  intros _. unfold Js.toString. destruct n as [|p|p]; simpl.
  - reflexivity.
  - pose proof (DecimalPos.Unsigned.to_uint_nonnil p) as Hn.
    rewrite (string_of_uint_nonnil _ Hn), (parseInt_of_uint _ Hn), to_uint_value.
    reflexivity.
  - pose proof (DecimalPos.Unsigned.to_uint_nonnil p) as Hn.
    rewrite (string_of_uint_nonnil _ Hn), (parseInt_of_neg_uint _ Hn), to_uint_value.
    reflexivity.
Qed.

Lemma parseInt_toString_witness : Str.parseInt (Js.toString 42) = Some 42.
Proof. apply (parseInt_toString 42). vm_compute. reflexivity. Defined.

(** ** The start time of the form *)

Lemma pad_table :
  forallb (fun n => String.eqb (Js.padStart 2 "0" (Js.toString n)) (Str.two_digits n))
    (seqZ 0 100) = true.
Proof. vm_compute. reflexivity. Qed.

Lemma pad_two_digits (n : Z) :
  0 <= n < 100 -> Js.padStart 2 "0" (Js.toString n) = Str.two_digits n.
Proof.
  intros Hn. pose proof pad_table as T. rewrite forallb_forall in T.
  specialize (T n). rewrite <- list_elem_of_In, elem_of_seqZ in T.
  apply String.eqb_eq. apply T. lia.
Qed.

Lemma number_table :
  forallb (fun h =>
    forallb (fun m =>
      match List.map Js.Number (Str.split ":" (Str.clock h m)) with
      | [Js.Int a; Js.Int b] => (a =? h) && (b =? m)
      | _ => false
      end) (seqZ 0 100)) (seqZ 0 100) = true.
Proof. vm_compute. reflexivity. Qed.

Lemma number_clock (h m : Z) :
  0 <= h < 100 -> 0 <= m < 100 ->
  List.map Js.Number (Str.split ":" (Str.clock h m)) = [Js.Int h; Js.Int m].
Proof.
  intros Hh Hm.
  pose proof number_table as T.
  rewrite forallb_forall in T.
  specialize (T h). rewrite <- list_elem_of_In, elem_of_seqZ in T.
  specialize (T ltac:(lia)).
  rewrite forallb_forall in T.
  specialize (T m). rewrite <- list_elem_of_In, elem_of_seqZ in T.
  specialize (T ltac:(lia)).
  destruct (List.map Js.Number _) as [|[a| | |] [|[c| | |] [|x t]]]; try discriminate T.
  apply andb_prop in T. destruct T as [Ta Tc].
  apply Z.eqb_eq in Ta, Tc. subst. reflexivity.
Qed.

(** The check of the form on a clock string HH:MM. *)
Lemma isStartTimeValid_clock (tz now h m : Z) :
  0 <= h < 24 -> 0 <= m < 60 ->
  Z.abs now + 2 * Time.msPerDay <= Time.maxTime ->
  SubmitBookingRequest.startDateTime tz now (Str.clock h m)
  = Some (Time.Day (Time.LocalTime tz now) * Time.msPerDay
          + (h * Time.msPerHour + m * Time.msPerMinute) - tz)
  /\ App.isStartTimeValid tz now (Str.clock h m)
     = Some (now <? Time.Day (Time.LocalTime tz now) * Time.msPerDay
                    + (h * Time.msPerHour + m * Time.msPerMinute) - tz).
Proof.
  intros Hh Hm Hrange.
  pose proof (clock_time_bounds tz now h m Hh Hm) as B.
  assert (SubmitBookingRequest.startDateTime tz now (Str.clock h m)
          = Some (Time.Day (Time.LocalTime tz now) * Time.msPerDay
                  + (h * Time.msPerHour + m * Time.msPerMinute) - tz)) as Hs.
  { rewrite (startDateTime_clock tz now h m Hh Hm). unfold Time.TimeClip.
    destruct (Z.leb_spec
                (Z.abs (Time.Day (Time.LocalTime tz now) * Time.msPerDay
                        + (h * Time.msPerHour + m * Time.msPerMinute) - tz))
                Time.maxTime); [reflexivity | unfold Time.msPerDay in *; lia]. }
  split; [exact Hs |].
  unfold App.isStartTimeValid.
  rewrite (number_clock h m ltac:(lia) ltac:(lia)). cbn [nth Js.dateArg].
  unfold SubmitBookingRequest.startDateTime in Hs.
  destruct (clock_parts h m Hh Hm) as [E0 E1]. rewrite E0, E1 in Hs.
  rewrite Hs. reflexivity.
Qed.

(** X14. The [min] that setMinimumStartTime gives the start-time input at
    the instant [set] is the clock minute HH:MM of [set], and the server
    reads the same hours and minutes back from it.  The form's own check,
    at an instant [now], accepts that minimum exactly when the local clock
    time of [now] is before HH:MM: it refuses it from [set] on for the
    rest of the local day, and accepts it again after local midnight.  The
    server puts HH:MM on its own local date, in its own zone; reading the
    same clock in the same zone it gets the first instant of the minute of
    [set]. *)
Theorem minimum_start_time_until_midnight (tz set now : Z) :
  Z.abs set + 2 * Time.msPerDay <= Time.maxTime ->
  Z.abs now + 2 * Time.msPerDay <= Time.maxTime ->
  App.setMinimumStartTime tz set
  = Str.clock (Time.getHours tz set) (Time.getMinutes tz set)
  /\ SubmitBookingRequest.parsePart
       (Str.split ":" (App.setMinimumStartTime tz set)) 0
     = Some (Time.getHours tz set)
  /\ SubmitBookingRequest.parsePart
       (Str.split ":" (App.setMinimumStartTime tz set)) 1
     = Some (Time.getMinutes tz set)
  /\ (App.isStartTimeValid tz now (App.setMinimumStartTime tz set) = Some true
      \/ App.isStartTimeValid tz now (App.setMinimumStartTime tz set) = Some false)
  /\ (App.isStartTimeValid tz now (App.setMinimumStartTime tz set) = Some true
      <-> Time.TimeWithinDay (Time.LocalTime tz now)
          < Time.getHours tz set * Time.msPerHour
            + Time.getMinutes tz set * Time.msPerMinute)
  /\ (set <= now ->
      Time.Day (Time.LocalTime tz now) = Time.Day (Time.LocalTime tz set) ->
      App.isStartTimeValid tz now (App.setMinimumStartTime tz set) = Some false)
  /\ (forall tz' today,
        Z.abs today + 2 * Time.msPerDay <= Time.maxTime ->
        SubmitBookingRequest.startDateTime tz' today (App.setMinimumStartTime tz set)
        = Some (Time.Day (Time.LocalTime tz' today) * Time.msPerDay
                + (Time.getHours tz set * Time.msPerHour
                   + Time.getMinutes tz set * Time.msPerMinute) - tz'))
  /\ SubmitBookingRequest.startDateTime tz set (App.setMinimumStartTime tz set)
     = Some (set - (set + tz) mod Time.msPerMinute).
Proof.
  intros Hset Hnow.
  destruct (current_minute tz set) as (Hh & Hm & E).
  set (h := Time.getHours tz set) in *.
  set (m := Time.getMinutes tz set) in *.
  assert (App.setMinimumStartTime tz set = Str.clock h m) as Hmin.
  { unfold App.setMinimumStartTime, Str.clock. fold h. fold m.
    rewrite !pad_two_digits by lia. reflexivity. }
  rewrite Hmin.
  destruct (clock_parts _ _ Hh Hm) as [E0 E1].
  destruct (isStartTimeValid_clock tz now h m Hh Hm Hnow) as [_ Hv].
  assert (Time.Day (Time.LocalTime tz now) * Time.msPerDay
          = Time.LocalTime tz now - Time.TimeWithinDay (Time.LocalTime tz now)) as Hday.
  { unfold Time.Day, Time.TimeWithinDay, Time.msPerDay.
    pose proof (Z.div_mod (Time.LocalTime tz now) 86400000 ltac:(lia)). lia. }
  split; [reflexivity |]. split; [exact E0 |]. split; [exact E1 |].
  split; [rewrite Hv; destruct (_ <? _); [left | right]; reflexivity |].
  split; [| split; [| split]].
  - rewrite Hv. split.
    + intros H. injection H as H. apply Z.ltb_lt in H.
      unfold Time.LocalTime in *. lia.
    + intros H. f_equal. apply Z.ltb_lt. unfold Time.LocalTime in *. lia.
  - intros Hle Hsame. rewrite Hv. f_equal. apply Z.ltb_ge.
    rewrite Hsame. rewrite E.
    pose proof (Z.mod_pos_bound (set + tz) Time.msPerMinute ltac:(reflexivity)). lia.
  - intros tz' today Htoday.
    apply (isStartTimeValid_clock tz' today h m Hh Hm Htoday).
  - destruct (isStartTimeValid_clock tz set h m Hh Hm Hset) as [Hs _].
    rewrite Hs, E. reflexivity.
Qed.

Lemma minimum_start_time_until_midnight_witness :
  App.setMinimumStartTime 0 (at_clock 9 5)
  = Str.clock (Time.getHours 0 (at_clock 9 5)) (Time.getMinutes 0 (at_clock 9 5))
  /\ SubmitBookingRequest.parsePart
       (Str.split ":" (App.setMinimumStartTime 0 (at_clock 9 5))) 0
     = Some (Time.getHours 0 (at_clock 9 5))
  /\ SubmitBookingRequest.parsePart
       (Str.split ":" (App.setMinimumStartTime 0 (at_clock 9 5))) 1
     = Some (Time.getMinutes 0 (at_clock 9 5))
  /\ (App.isStartTimeValid 0 (at_clock 9 30) (App.setMinimumStartTime 0 (at_clock 9 5))
      = Some true
      \/ App.isStartTimeValid 0 (at_clock 9 30)
           (App.setMinimumStartTime 0 (at_clock 9 5)) = Some false)
  /\ (App.isStartTimeValid 0 (at_clock 9 30) (App.setMinimumStartTime 0 (at_clock 9 5))
      = Some true
      <-> Time.TimeWithinDay (Time.LocalTime 0 (at_clock 9 30))
          < Time.getHours 0 (at_clock 9 5) * Time.msPerHour
            + Time.getMinutes 0 (at_clock 9 5) * Time.msPerMinute)
  /\ (at_clock 9 5 <= at_clock 9 30 ->
      Time.Day (Time.LocalTime 0 (at_clock 9 30))
      = Time.Day (Time.LocalTime 0 (at_clock 9 5)) ->
      App.isStartTimeValid 0 (at_clock 9 30) (App.setMinimumStartTime 0 (at_clock 9 5))
      = Some false)
  /\ (forall tz' today,
        Z.abs today + 2 * Time.msPerDay <= Time.maxTime ->
        SubmitBookingRequest.startDateTime tz' today
          (App.setMinimumStartTime 0 (at_clock 9 5))
        = Some (Time.Day (Time.LocalTime tz' today) * Time.msPerDay
                + (Time.getHours 0 (at_clock 9 5) * Time.msPerHour
                   + Time.getMinutes 0 (at_clock 9 5) * Time.msPerMinute) - tz'))
  /\ SubmitBookingRequest.startDateTime 0 (at_clock 9 5)
       (App.setMinimumStartTime 0 (at_clock 9 5))
     = Some (at_clock 9 5 - (at_clock 9 5 + 0) mod Time.msPerMinute).
Proof.
  apply (minimum_start_time_until_midnight 0 (at_clock 9 5) (at_clock 9 30)).
  - vm_compute. discriminate.
  - vm_compute. discriminate.
Defined.

(** X15. On a start time HH:MM of the time input, the check of the form
    and the past check of the server agree when they read the same
    clock: the form refuses the time exactly when the server answers
    StartTimeInPast to the submission (its other rules passing), that is
    when the instant HH:MM of the local day is not after [now]. *)
Theorem start_time_checks_agree (tz : Z) (f : Faults) (now : Z) (ev : Event)
    (db : Db) (b : Body) (sid : string) (rid h m d : Z) :
  httpMethod ev = "POST" ->
  body ev = Parsed b ->
  Spec.Eligible f db b sid rid (Str.clock h m) d ->
  0 <= h < 24 -> 0 <= m < 60 ->
  Z.abs now + 2 * Time.msPerDay <= Time.maxTime ->
  App.isStartTimeValid tz now (Str.clock h m)
  = Some (now <? Time.Day (Time.LocalTime tz now) * Time.msPerDay
                 + (h * Time.msPerHour + m * Time.msPerMinute) - tz)
  /\ (App.isStartTimeValid tz now (Str.clock h m) = Some false
      <-> fst (SubmitBookingRequest.handler tz f now now ev db)
          = Return (Spec.rejection Spec.StartTimeInPast)).
Proof.
  intros Hm Hb Hel Hh Hmin Hrange.
  destruct (isStartTimeValid_clock tz now h m Hh Hmin Hrange) as [Hs Hv].
  split; [exact Hv |]. rewrite Hv.
  unfold SubmitBookingRequest.handler. rewrite Hm, Hb. simpl.
  unfold_M. enter Hel. rewrite Hs. simpl.
  set (s := Time.Day (Time.LocalTime tz now) * Time.msPerDay
            + (h * Time.msPerHour + m * Time.msPerMinute) - tz).
  destruct (Z.leb_spec s now) as [Hle | Hgt].
  - split; [reflexivity |]. intros _. f_equal. apply Z.ltb_ge. exact Hle.
  - split.
    + intros H. injection H as H. apply Z.ltb_ge in H. lia.
    + run_handler; discriminate.
Qed.

Lemma start_time_checks_agree_witness :
  App.isStartTimeValid 0 (at_clock 9 0) (Str.clock 9 0)
  = Some (at_clock 9 0
          <? Time.Day (Time.LocalTime 0 (at_clock 9 0)) * Time.msPerDay
             + (9 * Time.msPerHour + 0 * Time.msPerMinute) - 0)
  /\ (App.isStartTimeValid 0 (at_clock 9 0) (Str.clock 9 0) = Some false
      <-> fst (SubmitBookingRequest.handler 0 no_faults (at_clock 9 0) (at_clock 9 0)
                 (post "123456" 1 (Str.clock 9 0) 60) sample_db)
          = Return (Spec.rejection Spec.StartTimeInPast)).
Proof.
  apply (start_time_checks_agree 0 no_faults (at_clock 9 0)
           (post "123456" 1 (Str.clock 9 0) 60) sample_db
           {| student_id := Some "123456"; room_id := Some 1;
              start_time := Some (Str.clock 9 0); duration := Some 60 |}
           "123456" 1 9 0 60).
  - reflexivity.
  - reflexivity.
  - apply (sample_eligible (Str.clock 9 0) 60); [discriminate | lia].
  - lia.
  - lia.
  - vm_compute. discriminate.
Defined.

(** ** The form and the server *)




(** ** The room selector *)

(** The room list answered when the store's reads are answered. *)
Lemma getRooms_run (f : Faults) (now : Z) (ev : Event) (db : Db) :
  httpMethod ev = "GET" ->
  rooms_error f = None ->
  bookings_error f = None ->
  GetRooms.handler f now ev db
  = (Return
       {| statusCode := 200;
          responseBody :=
            RoomList
              (List.map
                 (fun room =>
                    RoomStatus.mk (Room.id room) (Room.name room)
                      (negb (bool_decide
                         (Room.id room ∈
                            (list_to_set
                               (List.map Booking.room_id
                                  (List.filter
                                     (fun b => (now <=? Booking.end_time b)
                                               && (Booking.start_time b <=? now))
                                     (bookings db))) : gset Z)))))
                 (order_by Room.id (List.filter Room.is_active (rooms db)))) |},
     db).
Proof.
  intros Hm Hr Hb. unfold GetRooms.handler. rewrite Hm.
  change (String.eqb "GET" "OPTIONS") with false.
  change (negb (String.eqb "GET" "GET")) with false.
  unfold_M. unfold answer, order. rewrite Hr, Hb. reflexivity.
Qed.

Lemma filter_nil_forall {A} (p : A -> bool) (l : list A) :
  List.filter p l = [] <-> forall x, In x l -> p x = false.
Proof.
  induction l as [|x l IH]; simpl.
  - split; [intros _ y [] | reflexivity].
  - destruct (p x) eqn:E.
    + split; [discriminate |]. intros H. specialize (H x (or_introl eq_refl)). congruence.
    + rewrite IH. split.
      * intros H y [<- | Hy]; [exact E | exact (H y Hy)].
      * intros H y Hy. apply H. right. exact Hy.
Qed.

(** X17. After a room list was answered, updateRoomSelect disables the
    room selector, with the single option "No rooms available", exactly
    when every active room has a confirmed booking with
    start_time <= now <= end_time; otherwise the selector is enabled. *)
Theorem selector_disabled_iff_all_occupied (escapeHtml : string -> string)
    (f : Faults) (now : Z) (ev : Event) (db : Db) (c : Z) (l : list RoomStatus.t) :
  httpMethod ev = "GET" ->
  fst (GetRooms.handler f now ev db)
  = Return {| statusCode := c; responseBody := RoomList l |} ->
  (App.disabled (App.updateRoomSelect escapeHtml l) = true
   <-> forall room, In room (rooms db) -> Room.is_active room = true ->
         exists k, In k (bookings db) /\ Booking.room_id k = Room.id room
                   /\ Booking.start_time k <= now <= Booking.end_time k)
  /\ (App.disabled (App.updateRoomSelect escapeHtml l) = true ->
      App.innerHTML (App.updateRoomSelect escapeHtml l)
      = "<option value=" ++ App.quote ++ App.quote
        ++ ">No rooms available</option>").
Proof.
  intros Hm Hresp.
  destruct (rooms_error f) as [e|] eqn:Hr.
  { revert Hresp. unfold GetRooms.handler. rewrite Hm.
    change (String.eqb "GET" "OPTIONS") with false.
    change (negb (String.eqb "GET" "GET")) with false.
    unfold_M. unfold answer, order. rewrite Hr. discriminate. }
  destruct (bookings_error f) as [e|] eqn:Hb.
  { revert Hresp. unfold GetRooms.handler. rewrite Hm.
    change (String.eqb "GET" "OPTIONS") with false.
    change (negb (String.eqb "GET" "GET")) with false.
    unfold_M. unfold answer, order. rewrite Hr, Hb. discriminate. }
  rewrite (getRooms_run f now ev db Hm Hr Hb) in Hresp.
  simpl in Hresp. injection Hresp as _ <-.
  unfold App.updateRoomSelect.
  match goal with
  | |- context [Nat.eqb (length ?a) 0] => set (avail := a)
  end.
  assert (avail = [] <->
          forall room, In room (rooms db) -> Room.is_active room = true ->
            exists k, In k (bookings db) /\ Booking.room_id k = Room.id room
                      /\ Booking.start_time k <= now <= Booking.end_time k) as Hiff.
  { unfold avail. rewrite filter_nil_forall. split.
    - intros H room Hin Hact.
      assert (In room (order_by Room.id (List.filter Room.is_active (rooms db))))
        as Hin' by (apply order_by_In; apply filter_In; auto).
      specialize (H _ (in_map _ _ _ Hin')). simpl in H.
      rewrite negb_false_iff, bool_decide_eq_true in H.
      apply occupied_spec. exact H.
    - intros H s Hs. apply in_map_iff in Hs. destruct Hs as (room & <- & Hin).
      apply order_by_In in Hin. apply filter_In in Hin. destruct Hin as [Hin Hact].
      simpl. rewrite negb_false_iff, bool_decide_eq_true.
      apply occupied_spec. exact (H room Hin Hact). }
  destruct avail as [|x t] eqn:E; simpl.
  - split; [| reflexivity]. split; [intros _; apply Hiff; reflexivity | reflexivity].
  - split; [| discriminate]. split; [discriminate |].
    intros H. apply Hiff in H. discriminate H.
Qed.

Lemma selector_disabled_iff_all_occupied_witness :
  (App.disabled
     (App.updateRoomSelect (fun s => s)
        [RoomStatus.mk 1 "Room A" false; RoomStatus.mk 2 "Room B" true]) = true
   <-> forall room, In room (rooms sample_db) -> Room.is_active room = true ->
         exists k, In k (bookings sample_db) /\ Booking.room_id k = Room.id room
                   /\ Booking.start_time k <= at_clock 10 30 <= Booking.end_time k)
  /\ (App.disabled
        (App.updateRoomSelect (fun s => s)
           [RoomStatus.mk 1 "Room A" false; RoomStatus.mk 2 "Room B" true]) = true ->
      App.innerHTML
        (App.updateRoomSelect (fun s => s)
           [RoomStatus.mk 1 "Room A" false; RoomStatus.mk 2 "Room B" true])
      = "<option value=" ++ App.quote ++ App.quote
        ++ ">No rooms available</option>").
Proof.
  apply (selector_disabled_iff_all_occupied (fun s => s) no_faults (at_clock 10 30)
           get sample_db 200).
  - reflexivity.
  - vm_compute. reflexivity.
Defined.
